(** * AntennaTracker/tracking.cpp: estimation and mode core of the antenna tracker

    A shallow embedding of [Tracker]'s tracking code.  Every C++ member
    function of tracking.cpp that is specified becomes a Rocq function on
    an explicit [Tracker] record; the hardware abstraction layer, the
    sensor drivers and the mathematics library are interfaces whose
    readings and functions are passed in.

    Numbers are modelled as the code has them:
    - [float] is IEEE-754 binary32, built on the parameterised reference
      semantics of the Standard Library ([SpecFloat], precision 24,
      [emax] 128, round to nearest even);
    - [uint32_t] clock values are [Z] reduced modulo [2^32];
    - [int32_t] and [int16_t] message and coordinate fields are [Z]. *)

From Stdlib Require Import ZArith Bool List Lia.
From Stdlib Require SpecFloat.
Import ListNotations.
Local Open Scope Z_scope.

(** ** Binary32 arithmetic *)

Module F32.
Import SpecFloat.

Definition prec : Z := 24.
Definition emax : Z := 128.

Definition float : Type := spec_float.

(** Conversion of an integer to [float] (round to nearest even), as done
    by the usual arithmetic conversions when an integer operand meets a
    [float] one. *)
Definition of_Z (z : Z) : float := binary_normalize prec emax z 0 false.

Definition add (a b : float) : float := SFadd prec emax a b.
Definition mul (a b : float) : float := SFmul prec emax a b.
Definition div (a b : float) : float := SFdiv prec emax a b.
Definition opp (a : float) : float := SFopp a.

Definition ltb (a b : float) : bool := SFltb a b.
Definition leb (a b : float) : bool := SFleb a b.
Definition gtb (a b : float) : bool := SFltb b a.
Definition eqb (a b : float) : bool := SFeqb a b.

Definition zero : float := S754_zero false.

Definition is_nan (a : float) : bool :=
  match a with S754_nan => true | _ => false end.

Definition is_zero (a : float) : bool :=
  match a with S754_zero _ => true | _ => false end.

Definition is_finite (a : float) : bool :=
  match a with S754_zero _ | S754_finite _ _ _ => true | _ => false end.

(** Integer part of a finite float, rounding toward zero. *)
Definition trunc (a : float) : Z :=
  match a with
  | S754_finite s m e =>
      let n := Z.shiftl (Zpos m) e in if s then - n else n
  | _ => 0
  end.

Definition INT32_MIN : Z := - 2 ^ 31.
Definition INT32_MAX : Z := 2 ^ 31 - 1.

(** [float] to [int32_t] conversion: truncation toward zero.  A value
    outside the range of [int32_t] has no defined result in C++; the
    model saturates, which is what the conversion instruction of the
    flight boards does, and maps NaN to 0. *)
Definition to_int32 (a : float) : Z :=
  match a with
  | S754_nan => 0
  | S754_infinity s => if s then INT32_MIN else INT32_MAX
  | _ => Z.max INT32_MIN (Z.min INT32_MAX (trunc a))
  end.

(** The [float] literals of tracking.cpp, given by their binary32
    significand and exponent. *)
Definition lit_0_95 : float := S754_finite false 15938355 (-24). (* 0.95f   *)
Definition lit_0_05 : float := S754_finite false 13421773 (-28). (* 0.05f   *)
Definition lit_0_01 : float := S754_finite false 10737418 (-30). (* 0.01f   *)
Definition lit_1e_6 : float := S754_finite false 8796093 (-43).  (* 1.0e-6f *)
Definition lit_100 : float := of_Z 100.                          (* 100.0f  *)

(** The state of the right-shift register of [SpecFloat]'s rounding,
    read as a fact about the integer [P] being shifted: after shifts
    amounting to a division by [pw], the register holds the quotient, and
    its round and sticky bits tell where the remainder lies with respect
    to half of [pw]. *)
Definition shr_inv (P pw : Z) (r : shr_record) : Prop :=
  exists rem,
    P = shr_m r * pw + rem /\ 0 <= rem < pw /\ 0 <= shr_m r /\
    match loc_of_shr_record r with
    | loc_Exact => rem = 0
    | loc_Inexact Lt => 0 < 2 * rem < pw
    | loc_Inexact Eq => 2 * rem = pw
    | loc_Inexact Gt => pw < 2 * rem
    end.
End F32.

Definition float : Type := F32.float.

(** ** Machine integers *)

(** Reduction to [uint32_t]: the result of unsigned 32-bit arithmetic. *)
Definition u32 (z : Z) : Z := z mod 2 ^ 32.

(** Reduction to [int32_t] (two's complement), used where an unsigned
    clock value is stored in the [int] variable [delay_timer]. *)
Definition s32 (z : Z) : Z := (z + 2 ^ 31) mod 2 ^ 32 - 2 ^ 31.

(** ** Data model *)

(** Modelled from the spec: [struct Location] is declared in a header that
    is not part of tracking.cpp.  Section 3 gives it a latitude, a
    longitude and an altitude.  They are scaled integers: latitude and
    longitude in 1e-7 degrees, copied as they are from the integer fields
    of the position message (lines 131-132), altitude in centimetres, the
    message's integer millimetres divided by 10 (line 133). *)
Record Location : Type := mkLocation {
  lat : Z;
  lng : Z;
  alt : Z
}.

(** [vehicle]: the state of the tracked vehicle. *)
Record Vehicle : Type := mkVehicle {
  location_valid : bool;
  location : Location;
  location_estimate : Location;
  last_update_us : Z;
  last_update_ms : Z;
  heading : float;
  ground_speed : float
}.

(** [nav_status]: the navigation command and the altitude fusion state. *)
Record NavStatus : Type := mkNavStatus {
  bearing : float;
  distance : float;
  pitch : float;
  altitude_difference : float;
  altitude_offset : float;
  manual_control_yaw : bool;
  manual_control_pitch : bool;
  need_altitude_calibration : bool
}.

Inductive ControlMode : Type :=
| MANUAL | STOP | SCAN | SERVO_TEST | AUTO | INITIALISING.

Definition ControlMode_eqb (a b : ControlMode) : bool :=
  match a, b with
  | MANUAL, MANUAL | STOP, STOP | SCAN, SCAN | SERVO_TEST, SERVO_TEST
  | AUTO, AUTO | INITIALISING, INITIALISING => true
  | _, _ => false
  end.

(** Modelled from the spec: the parameter block [g] is declared in a
    header that is not part of tracking.cpp.  Section 3 lists the startup
    delay, the altitude-source selector and the pitch trim.  tracking.cpp
    multiplies the startup delay by 1000 before comparing it with a
    millisecond count, so it is a number of seconds; it is carried as a
    [float], like the pitch trim that is added to a [float] pitch.  The
    selector is compared with the integers 0 and 1. *)
Record Parameters : Type := mkParameters {
  startup_delay : float;
  alt_source : Z;
  pitch_trim : float
}.

(** Commands sent to the servo layer, in the order they are issued.  The
    servo layer is outside tracking.cpp; the model records what is asked
    of it. *)
Inductive ServoCmd : Type :=
| YawDisableOut
| PitchEnableOut
| UpdatePitchServo (p : float)
| DisarmServos.

(** The part of the [Tracker] object (and the file-level [delay_timer])
    that tracking.cpp reads and writes. *)
Record Tracker : Type := mkTracker {
  vehicle : Vehicle;
  nav_status : NavStatus;
  current_loc : Location;
  old_loc : Location;
  control_mode : ControlMode;
  g : Parameters;
  start_time_ms : Z;
  delay_timer : Z;
  servo_out : list ServoCmd
}.

(** *** Field updates *)

Definition set_vehicle (t : Tracker) (v : Vehicle) : Tracker :=
  mkTracker v (nav_status t) (current_loc t) (old_loc t) (control_mode t)
            (g t) (start_time_ms t) (delay_timer t) (servo_out t).

Definition set_nav_status (t : Tracker) (n : NavStatus) : Tracker :=
  mkTracker (vehicle t) n (current_loc t) (old_loc t) (control_mode t)
            (g t) (start_time_ms t) (delay_timer t) (servo_out t).

Definition set_locs (t : Tracker) (cur old : Location) : Tracker :=
  mkTracker (vehicle t) (nav_status t) cur old (control_mode t)
            (g t) (start_time_ms t) (delay_timer t) (servo_out t).

Definition set_control_mode (t : Tracker) (m : ControlMode) : Tracker :=
  mkTracker (vehicle t) (nav_status t) (current_loc t) (old_loc t) m
            (g t) (start_time_ms t) (delay_timer t) (servo_out t).

Definition set_delay_timer (t : Tracker) (d : Z) : Tracker :=
  mkTracker (vehicle t) (nav_status t) (current_loc t) (old_loc t)
            (control_mode t) (g t) (start_time_ms t) d (servo_out t).

Definition servo (t : Tracker) (c : ServoCmd) : Tracker :=
  mkTracker (vehicle t) (nav_status t) (current_loc t) (old_loc t)
            (control_mode t) (g t) (start_time_ms t) (delay_timer t)
            (servo_out t ++ [c]).

Definition set_location_estimate (v : Vehicle) (l : Location) : Vehicle :=
  mkVehicle (location_valid v) (location v) l (last_update_us v)
            (last_update_ms v) (heading v) (ground_speed v).

Definition set_location_valid (v : Vehicle) (b : bool) : Vehicle :=
  mkVehicle b (location v) (location_estimate v) (last_update_us v)
            (last_update_ms v) (heading v) (ground_speed v).

Definition set_bearing (n : NavStatus) (f : float) : NavStatus :=
  mkNavStatus f (distance n) (pitch n) (altitude_difference n)
              (altitude_offset n) (manual_control_yaw n)
              (manual_control_pitch n) (need_altitude_calibration n).

Definition set_distance (n : NavStatus) (f : float) : NavStatus :=
  mkNavStatus (bearing n) f (pitch n) (altitude_difference n)
              (altitude_offset n) (manual_control_yaw n)
              (manual_control_pitch n) (need_altitude_calibration n).

Definition set_pitch (n : NavStatus) (f : float) : NavStatus :=
  mkNavStatus (bearing n) (distance n) f (altitude_difference n)
              (altitude_offset n) (manual_control_yaw n)
              (manual_control_pitch n) (need_altitude_calibration n).

Definition set_altitude_difference (n : NavStatus) (f : float) : NavStatus :=
  mkNavStatus (bearing n) (distance n) (pitch n) f
              (altitude_offset n) (manual_control_yaw n)
              (manual_control_pitch n) (need_altitude_calibration n).

Definition set_altitude_offset (n : NavStatus) (f : float) : NavStatus :=
  mkNavStatus (bearing n) (distance n) (pitch n) (altitude_difference n)
              f (manual_control_yaw n)
              (manual_control_pitch n) (need_altitude_calibration n).

Definition set_manual_control_yaw (n : NavStatus) (b : bool) : NavStatus :=
  mkNavStatus (bearing n) (distance n) (pitch n) (altitude_difference n)
              (altitude_offset n) b
              (manual_control_pitch n) (need_altitude_calibration n).

Definition set_manual_control_pitch (n : NavStatus) (b : bool) : NavStatus :=
  mkNavStatus (bearing n) (distance n) (pitch n) (altitude_difference n)
              (altitude_offset n) (manual_control_yaw n)
              b (need_altitude_calibration n).

Definition set_need_altitude_calibration (n : NavStatus) (b : bool)
  : NavStatus :=
  mkNavStatus (bearing n) (distance n) (pitch n) (altitude_difference n)
              (altitude_offset n) (manual_control_yaw n)
              (manual_control_pitch n) b.

(** ** The environment of a call *)

(** Modelled from the spec: [AP_GPS::GPS_Status] is declared in the GPS
    driver.  Section 4.2 orders fix qualities and asks for "at least a 2D
    fix"; the statuses are listed from worst to best. *)
Inductive GPS_Status : Type :=
| NO_GPS | NO_FIX | GPS_OK_FIX_2D | GPS_OK_FIX_3D.

Definition GPS_Status_rank (s : GPS_Status) : Z :=
  match s with
  | NO_GPS => 0 | NO_FIX => 1 | GPS_OK_FIX_2D => 2 | GPS_OK_FIX_3D => 3
  end.

(** Modelled from the spec: the safety interlock of section 4.5 either
    reports that servos cannot be moved ([SAFETY_DISARMED]) or something
    else. *)
Inductive safety_state : Type :=
| SAFETY_NONE | SAFETY_DISARMED | SAFETY_ARMED.

Definition is_SAFETY_DISARMED (s : safety_state) : bool :=
  match s with SAFETY_DISARMED => true | _ => false end.

(** What the scheduler clock and the sensor drivers answer during one call
    of a tracking.cpp entry point.  The clock is sampled once per call. *)
Record HAL : Type := mkHAL {
  micros : Z;                        (* hal.scheduler->micros(), uint32_t *)
  millis : Z;                        (* hal.scheduler->millis(), uint32_t *)
  gps_status : GPS_Status;           (* gps.status()                      *)
  gps_location : Location;           (* gps.location()                    *)
  ahrs_pitch : float;                (* ahrs.pitch, radians               *)
  safety_switch_state : safety_state;(* hal.util->safety_switch_state()   *)
  baro_get_pressure : float;         (* barometer.get_pressure()          *)
  baro_get_altitude_difference : float -> float -> float
                                     (* barometer.get_altitude_difference *)
}.

(** Telemetry messages (the fields tracking.cpp reads). *)
Record mavlink_global_position_int_t : Type := mkGlobalPositionInt {
  msg_lat : Z;   (* int32_t, 1e-7 degrees *)
  msg_lon : Z;   (* int32_t, 1e-7 degrees *)
  msg_alt : Z;   (* int32_t, millimetres  *)
  msg_vx : Z;    (* int16_t, cm/s         *)
  msg_vy : Z;    (* int16_t, cm/s         *)
  msg_hdg : Z    (* uint16_t, centidegrees *)
}.

Record mavlink_scaled_pressure_t : Type := mkScaledPressure {
  msg_press_abs : float
}.

Record mavlink_manual_control_t : Type := mkManualControl {
  msg_x : Z;     (* int16_t *)
  msg_y : Z      (* int16_t *)
}.

(** The collaborators of tracking.cpp that live in other files: the
    location and angle functions of the mathematics library and the
    per-mode control strategies.  tracking.cpp only calls them. *)
Class Collaborators : Type := mkCollaborators {
  location_update : Location -> float -> float -> Location;
  get_bearing_cd : Location -> Location -> Z;
  get_distance : Location -> Location -> float;
  atan2f : float -> float -> float;
  degrees : float -> float;
  constrain_float : float -> float -> float -> float;
  pythagorous2 : float -> float -> float;
  update_auto : HAL -> Tracker -> Tracker;
  update_manual : HAL -> Tracker -> Tracker;
  update_scan : HAL -> Tracker -> Tracker;
  update_servo_test : HAL -> Tracker -> Tracker
}.

(** Modelled from the spec: the lost-vehicle timeout [TRACKING_TIMEOUT_SEC]
    is a macro of the configuration header; section 4.1 fixes it at 5.0
    seconds. *)
Definition TRACKING_TIMEOUT_SEC : float := F32.of_Z 5.

(** Modelled from the spec: [TRACKING_TIMEOUT_MS] is the same timeout in
    milliseconds. *)
Definition TRACKING_TIMEOUT_MS : Z := 5000.

(** Modelled from the spec: [Tracker::set_mode] is defined outside
    tracking.cpp; section 4.5 has INITIALISING "transition to AUTO", that
    is, the active control mode becomes the requested one. *)
Definition set_mode (m : ControlMode) (t : Tracker) : Tracker :=
  set_control_mode t m.

(** Modelled from the spec: [Tracker::disarm_servos] is defined outside
    tracking.cpp; section 4.5 has STOP "command a full de-energize of all
    actuator axes", which is a request to the servo layer. *)
Definition disarm_servos (t : Tracker) : Tracker := servo t DisarmServos.

(** ** The functions of tracking.cpp *)

Section Tracking.
Context {C : Collaborators}.

(** [Tracker::update_vehicle_pos_estimate] (lines 9-25). *)
Definition update_vehicle_pos_estimate (hal : HAL) (t : Tracker) : Tracker :=
  let dt :=
    F32.mul (F32.of_Z (u32 (micros hal - last_update_us (vehicle t))))
            F32.lit_1e_6 in
  if F32.ltb dt TRACKING_TIMEOUT_SEC then
    let est :=
      location_update (location (vehicle t)) (heading (vehicle t))
                      (F32.mul (ground_speed (vehicle t)) dt) in
    set_vehicle t
      (set_location_valid (set_location_estimate (vehicle t) est) true)
  else
    set_vehicle t (set_location_valid (vehicle t) false).

(** [Tracker::update_tracker_position] (lines 31-46). *)
Definition update_tracker_position (hal : HAL) (t : Tracker) : Tracker :=
  if GPS_Status_rank GPS_OK_FIX_2D <=? GPS_Status_rank (gps_status hal) then
    let cur := gps_location hal in
    let old :=
      if (alt (old_loc t) =? 0) && (lat (old_loc t) =? 0)
         && (lng (old_loc t) =? 0)
      then gps_location hal
      else old_loc t in
    let new_alt :=
      F32.to_int32 (F32.add (F32.mul F32.lit_0_95 (F32.of_Z (alt old)))
                            (F32.mul F32.lit_0_05 (F32.of_Z (alt cur)))) in
    let new_lat :=
      F32.to_int32 (F32.add (F32.mul F32.lit_0_95 (F32.of_Z (lat old)))
                            (F32.mul F32.lit_0_05 (F32.of_Z (lat cur)))) in
    let new_lng :=
      F32.to_int32 (F32.add (F32.mul F32.lit_0_95 (F32.of_Z (lng old)))
                            (F32.mul F32.lit_0_05 (F32.of_Z (lng cur)))) in
    let cur' := mkLocation new_lat new_lng new_alt in
    set_locs t cur' cur'
  else t.

(** [Tracker::update_bearing_and_distance] (lines 52-73). *)
Definition update_bearing_and_distance (t : Tracker) : Tracker :=
  if negb (location_valid (vehicle t))
     || ControlMode_eqb (control_mode t) SERVO_TEST
  then t
  else
    let n0 := nav_status t in
    let n1 :=
      if negb (ControlMode_eqb (control_mode t) SCAN)
         && negb (manual_control_yaw n0)
      then set_bearing n0
             (F32.mul
                (F32.of_Z (get_bearing_cd (current_loc t)
                                          (location_estimate (vehicle t))))
                F32.lit_0_01)
      else n0 in
    let n2 :=
      set_distance n1
        (get_distance (current_loc t) (location_estimate (vehicle t))) in
    let n3 :=
      if negb (ControlMode_eqb (control_mode t) SCAN)
         && negb (manual_control_pitch n2)
      then set_pitch n2
             (degrees (atan2f (altitude_difference n2) (distance n2)))
      else n2 in
    set_nav_status t n3.

(** The settle band test and the wait of [Tracker::update_initialising]
    (lines 217-225), named so that statements can refer to them. *)
Definition in_settle_band (hal : HAL) : bool :=
  let ahrs_pitch_deg := degrees (ahrs_pitch hal) in
  F32.ltb ahrs_pitch_deg (F32.of_Z 50) && F32.gtb ahrs_pitch_deg (F32.of_Z 40).

(** [g.startup_delay > 0 && now - since < g.startup_delay*1000], the
    test that both the startup gate (lines 90-91) and the settle wait
    (lines 222-223) apply; [now - since] is unsigned 32-bit. *)
Definition delay_pending (p : Parameters) (now since : Z) : bool :=
  F32.gtb (startup_delay p) (F32.of_Z 0)
  && F32.ltb (F32.of_Z (u32 (now - since)))
             (F32.mul (startup_delay p) (F32.of_Z 1000)).

(** [Tracker::update_armed_disarmed] (lines 194-201): the value it gives
    to the "armed" notification flag, which lives outside the tracker. *)
Definition update_armed_disarmed (hal : HAL) (t : Tracker) : bool :=
  negb (last_update_ms (vehicle t) =? 0)
  && (u32 (millis hal - last_update_ms (vehicle t)) <? TRACKING_TIMEOUT_MS).

(** [Tracker::update_initialising] (lines 205-228); [delay_timer] is the
    file-level [int] of line 203. *)
Definition update_initialising (hal : HAL) (t : Tracker) : Tracker :=
  let t1 := set_nav_status t (set_pitch (nav_status t) (F32.of_Z 45)) in
  let t2 := servo t1 YawDisableOut in
  let t3 := servo t2 PitchEnableOut in
  let pitch_cmd :=
    constrain_float (F32.add (pitch (nav_status t3)) (pitch_trim (g t3)))
                    (F32.of_Z (-90)) (F32.of_Z 90) in
  let t4 := servo t3 (UpdatePitchServo pitch_cmd) in
  if in_settle_band hal then
    let t5 :=
      if delay_timer t4 =? 0
      then set_delay_timer t4 (s32 (millis hal))
      else t4 in
    if delay_pending (g t5) (millis hal) (delay_timer t5) then t5
    else set_mode AUTO t5
  else t4.

(** The [switch (control_mode)] of [Tracker::update_tracking]
    (lines 100-123). *)
Definition mode_dispatch (hal : HAL) (t : Tracker) : Tracker :=
  match control_mode t with
  | AUTO => update_auto hal t
  | MANUAL => update_manual hal t
  | SCAN => update_scan hal t
  | SERVO_TEST => update_servo_test hal t
  | STOP => disarm_servos t
  | INITIALISING => update_initialising hal t
  end.

(** The three estimation calls that open [Tracker::update_tracking]
    (lines 80-87). *)
Definition estimation_stage (hal : HAL) (t : Tracker) : Tracker :=
  update_bearing_and_distance
    (update_tracker_position hal (update_vehicle_pos_estimate hal t)).

(** [Tracker::update_tracking] (lines 78-124). *)
Definition update_tracking (hal : HAL) (t : Tracker) : Tracker :=
  let t1 := estimation_stage hal t in
  if delay_pending (g t1) (millis hal) (start_time_ms t1) then t1
  else if is_SAFETY_DISARMED (safety_switch_state hal) then t1
  else mode_dispatch hal t1.

(** [Tracker::tracking_update_gps_alt] (lines 171-176).  The operands of
    the division are integers, so it truncates toward zero. *)
Definition tracking_update_gps_alt (t : Tracker) : Tracker :=
  if location_valid (vehicle t) then
    set_nav_status t
      (set_altitude_difference (nav_status t)
         (F32.of_Z
            (Z.quot (alt (location (vehicle t)) - alt (current_loc t)) 100)))
  else t.

(** [Tracker::tracking_update_position] (lines 129-141). *)
Definition tracking_update_position (hal : HAL)
    (msg : mavlink_global_position_int_t) (t : Tracker) : Tracker :=
  let v := vehicle t in
  let v' :=
    mkVehicle (location_valid v)
              (mkLocation (msg_lat msg) (msg_lon msg) (Z.quot (msg_alt msg) 10))
              (location_estimate v)
              (micros hal)
              (millis hal)
              (F32.mul (F32.of_Z (msg_hdg msg)) F32.lit_0_01)
              (F32.mul (pythagorous2 (F32.of_Z (msg_vx msg))
                                     (F32.of_Z (msg_vy msg)))
                       F32.lit_0_01) in
  let t1 := set_vehicle t v' in
  if alt_source (g t1) =? 1 then tracking_update_gps_alt t1 else t1.

(** [Tracker::tracking_update_pressure] (lines 147-169). *)
Definition tracking_update_pressure (hal : HAL)
    (msg : mavlink_scaled_pressure_t) (t : Tracker) : Tracker :=
  if negb (alt_source (g t) =? 0) then t
  else
    let local_pressure := baro_get_pressure hal in
    let aircraft_pressure := F32.mul (msg_press_abs msg) F32.lit_100 in
    let alt_diff :=
      baro_get_altitude_difference hal local_pressure aircraft_pressure in
    let n1 :=
      if negb (F32.is_nan alt_diff)
      then set_altitude_difference (nav_status t)
             (F32.add alt_diff (altitude_offset (nav_status t)))
      else nav_status t in
    let n2 :=
      if need_altitude_calibration n1 then
        set_need_altitude_calibration
          (set_altitude_difference
             (set_altitude_offset n1 (F32.opp (altitude_difference n1)))
             (F32.of_Z 0))
          false
      else n1 in
    set_nav_status t n2.

(** [Tracker::tracking_manual_control] (lines 181-189). *)
Definition tracking_manual_control (msg : mavlink_manual_control_t)
    (t : Tracker) : Tracker :=
  let n1 := set_bearing (nav_status t) (F32.of_Z (msg_x msg)) in
  let n2 := set_pitch n1 (F32.of_Z (msg_y msg)) in
  let n3 := set_distance n2 F32.zero in
  let n4 := set_manual_control_yaw n3 (negb (msg_x msg =? 0x7FFF)) in
  let n5 := set_manual_control_pitch n4 (negb (msg_y msg =? 0x7FFF)) in
  set_nav_status t n5.

End Tracking.

(** ** Vocabulary of the statements *)

Section Vocabulary.
Context {C : Collaborators}.

(** The time since the last position update, in seconds, as
    [update_vehicle_pos_estimate] computes it (line 12): the unsigned
    32-bit difference of the two microsecond stamps, converted to [float]
    and scaled by [1.0e-6f]. *)
Definition elapsed_sec (hal : HAL) (t : Tracker) : float :=
  F32.mul (F32.of_Z (u32 (micros hal - last_update_us (vehicle t))))
          F32.lit_1e_6.

(** "At least a 2D fix" (line 35). *)
Definition fix_adequate (hal : HAL) : bool :=
  GPS_Status_rank GPS_OK_FIX_2D <=? GPS_Status_rank (gps_status hal).

(** The zero sentinel of the position filter (line 38). *)
Definition is_zero_sentinel (l : Location) : bool :=
  (alt l =? 0) && (lat l =? 0) && (lng l =? 0).

(** The blend of the spec, [0.95*old + 0.05*raw], for one integer
    coordinate: both operands converted to [float], the products and the
    sum rounded to binary32, the result truncated back to an integer. *)
Definition ema_axis (old raw : Z) : Z :=
  F32.to_int32
    (F32.add (F32.mul F32.lit_0_95 (F32.of_Z old))
             (F32.mul F32.lit_0_05 (F32.of_Z raw))).

(** The blend applied to the three coordinates. *)
Definition ema_location (old raw : Location) : Location :=
  mkLocation (ema_axis (lat old) (lat raw))
             (ema_axis (lng old) (lng raw))
             (ema_axis (alt old) (alt raw)).

(** The altitude difference of GPS-altitude mode (line 174): whole
    metres, the centimetre difference divided by 100 toward zero. *)
Definition gps_alt_difference (vehicle_alt tracker_alt : Z) : float :=
  F32.of_Z (Z.quot (vehicle_alt - tracker_alt) 100).

(** The value [delay_timer] holds after a call of [update_initialising]:
    latched to the clock by an in-band call that finds it at 0, and kept
    otherwise. *)
Definition settle_timer_after (hal : HAL) (t : Tracker) : Z :=
  if in_settle_band hal && (delay_timer t =? 0)
  then s32 (millis hal)
  else delay_timer t.

(** A run of [update_initialising] over successive readings. *)
Fixpoint run_initialising (hs : list HAL) (t : Tracker) : Tracker :=
  match hs with
  | [] => t
  | h :: hs' => run_initialising hs' (update_initialising h t)
  end.

(** A run of [update_tracking] over the readings of successive ticks. *)
Fixpoint run_tracking (hs : list HAL) (t : Tracker) : Tracker :=
  match hs with
  | [] => t
  | h :: hs' => run_tracking hs' (update_tracking h t)
  end.

End Vocabulary.

(** ** Sequences of calls

    The entry points of tracking.cpp are called one after the other: the
    estimation calls at the head of each 50 Hz tick, and the three
    message handlers as telemetry arrives. *)

Inductive Event : Type :=
| Estimate (hal : HAL)
| PositionMsg (hal : HAL) (msg : mavlink_global_position_int_t)
| PressureMsg (hal : HAL) (msg : mavlink_scaled_pressure_t)
| ManualMsg (msg : mavlink_manual_control_t).

Definition is_ManualMsg (e : Event) : bool :=
  match e with ManualMsg _ => true | _ => false end.

(** An [Estimate] with an adequate GPS fix is the only event that moves
    the tracker position. *)
Definition has_adequate_fix (e : Event) : bool :=
  match e with
  | Estimate hal =>
      GPS_Status_rank GPS_OK_FIX_2D <=? GPS_Status_rank (gps_status hal)
  | _ => false
  end.

Section Events.
Context {C : Collaborators}.

Definition handle (e : Event) (t : Tracker) : Tracker :=
  match e with
  | Estimate hal => estimation_stage hal t
  | PositionMsg hal msg => tracking_update_position hal msg t
  | PressureMsg hal msg => tracking_update_pressure hal msg t
  | ManualMsg msg => tracking_manual_control msg t
  end.

Fixpoint run (es : list Event) (t : Tracker) : Tracker :=
  match es with
  | [] => t
  | e :: es' => run es' (handle e t)
  end.

End Events.

(** ** A test bench

    Stand-ins for the collaborators and concrete inputs, used to run the
    functions above on explicit values.  The stand-ins are not the
    mathematics library: general statements below quantify over every
    [Collaborators]. *)

Module Bench.

(** 180/pi as a binary32 value (57.29578f). *)
Definition RAD_TO_DEG : float := SpecFloat.S754_finite false 15019745 (-18).

(** pi/4 as a binary32 value (0.7853982f): a pitch of 45 degrees. *)
Definition QUARTER_PI : float := SpecFloat.S754_finite false 13176795 (-24).

(** Moves a location north by [d] centimetre-sized units, whatever the
    bearing; at a zero distance the location is returned as it is. *)
Definition bench_location_update (l : Location) (b d : float) : Location :=
  if F32.is_zero d then l
  else mkLocation (lat l + F32.to_int32 d) (lng l) (alt l).

Definition bench_get_bearing_cd (a b : Location) : Z :=
  if lat a <=? lat b then 0 else 18000.

Definition bench_get_distance (a b : Location) : float :=
  F32.of_Z (Z.abs (lat b - lat a) + Z.abs (lng b - lng a)).

Definition bench_atan2f (y x : float) : float :=
  if F32.is_zero x then y else F32.div y x.

Definition bench_degrees (r : float) : float := F32.mul r RAD_TO_DEG.

Definition bench_constrain_float (amt low high : float) : float :=
  if F32.ltb amt low then low
  else if F32.gtb amt high then high
  else amt.

Definition bench_pythagorous2 (a b : float) : float :=
  SpecFloat.SFsqrt F32.prec F32.emax (F32.add (F32.mul a a) (F32.mul b b)).

Definition bench : Collaborators :=
  mkCollaborators bench_location_update bench_get_bearing_cd
                  bench_get_distance bench_atan2f bench_degrees
                  bench_constrain_float bench_pythagorous2
                  (fun _ t => t) (fun _ t => t) (fun _ t => t)
                  (fun _ t => t).

Definition origin : Location := mkLocation 0 0 0.

(** A fix near Zurich: 47.3977421 N, 8.5455939 E, 488.13 m. *)
Definition zurich : Location := mkLocation 473977421 85455939 48813.

Definition nav0 : NavStatus :=
  mkNavStatus F32.zero F32.zero F32.zero F32.zero F32.zero
              false false false.

Definition vehicle0 : Vehicle :=
  mkVehicle false origin origin 0 0 F32.zero F32.zero.

(** Parameters with a startup delay of [d] seconds and altitude source
    [src]. *)
Definition params (d : Z) (src : Z) : Parameters :=
  mkParameters (F32.of_Z d) src F32.zero.

(** No startup delay, barometric altitude. *)
Definition p0 : Parameters := params 0 0.

(** The tracker as it is before any telemetry or fix, in [mode]. *)
Definition tracker0 (mode : ControlMode) (p : Parameters) : Tracker :=
  mkTracker vehicle0 nav0 origin origin mode p 0 0 [].

(** Clock and sensor readings: time in milliseconds, a GPS status and
    fix, an attitude pitch in radians and the safety switch; the
    barometer driver answers [baro] for every pressure pair. *)
Definition readings (ms : Z) (st : GPS_Status) (raw : Location)
    (pitch_rad : float) (sw : safety_state) (baro : float) : HAL :=
  mkHAL (u32 (ms * 1000)) (u32 ms) st raw pitch_rad sw
        (F32.of_Z 101325) (fun _ _ => baro).

(** Readings at time [ms] with no GPS fix, a level attitude and the
    safety switch armed. *)
Definition at_ms (ms : Z) : HAL :=
  readings ms NO_FIX origin F32.zero SAFETY_ARMED F32.zero.

(** Readings at time [ms] with the attitude pitch at [pitch_rad]. *)
Definition pitch_at (ms : Z) (pitch_rad : float) : HAL :=
  readings ms NO_FIX origin pitch_rad SAFETY_ARMED F32.zero.

(** Readings with a 3D fix at [raw]. *)
Definition fix_at (raw : Location) : HAL :=
  readings 0 GPS_OK_FIX_3D raw F32.zero SAFETY_ARMED F32.zero.

(** Readings whose barometer driver answers [baro]. *)
Definition baro_at (baro : float) : HAL :=
  readings 0 NO_FIX origin F32.zero SAFETY_ARMED baro.

(** A vehicle last heard of at time 0 over Zurich, heading east at
    10 m/s; [valid] is the validity flag left by the previous tick. *)
Definition vehicle_east (valid : bool) : Vehicle :=
  mkVehicle valid zurich origin 0 0 (F32.of_Z 90) (F32.of_Z 10).

Definition tracker_east (valid : bool) (mode : ControlMode)
    (p : Parameters) : Tracker :=
  mkTracker (vehicle_east valid) nav0 origin origin mode p 0 0 [].

(** A vehicle 100 m above the tracker, which has no fix yet and sits at
    the origin with altitude difference 0. *)
Definition vehicle_above : Vehicle :=
  mkVehicle true (mkLocation 0 0 10000) origin 0 0 F32.zero F32.zero.

Definition tracker_below (mode : ControlMode) : Tracker :=
  mkTracker vehicle_above nav0 origin origin mode (params 0 1) 0 0 [].

(** A position message: Zurich at 150.99 m, heading 90 degrees. *)
Definition position_msg : mavlink_global_position_int_t :=
  mkGlobalPositionInt 473977421 85455939 150990 300 400 9000.

(** A navigation status with altitude difference [ad], offset [ao] and
    the calibration flag [cal]. *)
Definition nav_alt (ad ao : float) (cal : bool) : NavStatus :=
  mkNavStatus F32.zero F32.zero F32.zero ad ao false false cal.

Definition tracker_alt (ad ao : float) (cal : bool) : Tracker :=
  mkTracker vehicle0 (nav_alt ad ao cal) origin origin AUTO (params 0 0)
            0 0 [].

(** The Zurich fix after one pass through the filter. *)
Definition smoothed_zurich : Location :=
  mkLocation 473977408 85455936 48812.

(** A tracker whose filter already holds [l]. *)
Definition tracker_at (l : Location) : Tracker :=
  mkTracker vehicle0 nav0 l l AUTO (params 0 0) 0 0 [].

(** A manual-control sample: yaw axis unused, pitch axis at 100. *)
Definition manual_msg : mavlink_manual_control_t :=
  mkManualControl 0x7FFF 100.

(** A pressure sample of 1000 hPa. *)
Definition pressure_msg : mavlink_scaled_pressure_t :=
  mkScaledPressure (F32.of_Z 1000).

(** The 50 Hz pitch readings of an interrupted settle attempt: in the
    band (45 degrees) at 1.000 s, level on the 99 ticks from 1.020 s to
    2.980 s, and back in the band at 3.000 s. *)
Definition level_ticks : list HAL :=
  map (fun k => pitch_at (1020 + 20 * Z.of_nat k) F32.zero) (seq 0 99).

Definition interrupted_settle : list HAL :=
  pitch_at 1000 QUARTER_PI :: level_ticks ++ [pitch_at 3000 QUARTER_PI].

(** A tick at time [ms] with a 3D fix at [raw]. *)
Definition fix_at_ms (ms : Z) (raw : Location) : HAL :=
  readings ms GPS_OK_FIX_3D raw F32.zero SAFETY_ARMED F32.zero.

(** A tick at time [ms] with the safety switch disarmed. *)
Definition disarmed_at (ms : Z) : HAL :=
  readings ms NO_FIX origin F32.zero SAFETY_DISARMED F32.zero.

(** Telemetry and ticks without a GPS fix and without manual control: a
    position message at 1.000 s, a tick, a pressure sample whose
    differential altitude is 7, another tick. *)
Definition telemetry_events : list Event :=
  [PositionMsg (at_ms 1000) position_msg; Estimate (at_ms 1020);
   PressureMsg (baro_at (F32.of_Z 7)) pressure_msg; Estimate (at_ms 1040)].

(** The same with a manual-control sample in the middle and a tick with a
    fix at the end. *)
Definition mixed_events : list Event :=
  [PositionMsg (at_ms 1000) position_msg; Estimate (at_ms 1020);
   ManualMsg manual_msg;
   PressureMsg (baro_at (F32.of_Z 7)) pressure_msg;
   Estimate (fix_at_ms 1040 zurich)].

(** A manual-control sample driving yaw to 1500 and leaving pitch
    unused. *)
Definition yaw_msg : mavlink_manual_control_t :=
  mkManualControl 1500 0x7FFF.

(** GPS-altitude mode with a calibration request pending and an offset of
    3. *)
Definition tracker_gps_pending : Tracker :=
  mkTracker vehicle0 (nav_alt F32.zero (F32.of_Z 3) true) origin origin
            AUTO (params 0 1) 0 0 [].

(** A tracker whose previous smoothed location differs from the current
    one. *)
Definition tracker_split : Tracker :=
  mkTracker vehicle0 nav0 zurich smoothed_zurich AUTO p0 0 0 [].

End Bench.

(** ** Proof automation *)

(** Replaces the closed powers of 2 of the goal and the hypotheses by
    their values. *)
Ltac eval_pow2 :=
  repeat match goal with
         | H : context [2 ^ ?k] |- _ =>
             let v := eval vm_compute in (2 ^ k) in
             change (2 ^ k) with v in H
         | |- context [2 ^ ?k] =>
             let v := eval vm_compute in (2 ^ k) in
             change (2 ^ k) with v
         end.

(** ** Facts about binary32 arithmetic *)

Module F32Facts.
Import SpecFloat.

(** The literals are the correctly rounded values of the decimal
    fractions they are written as. *)
Lemma literals_correctly_rounded :
  F32.lit_0_95 = F32.div (F32.of_Z 95) (F32.of_Z 100) /\
  F32.lit_0_05 = F32.div (F32.of_Z 5) (F32.of_Z 100) /\
  F32.lit_0_01 = F32.div (F32.of_Z 1) (F32.of_Z 100) /\
  F32.lit_1e_6 = F32.div (F32.of_Z 1) (F32.of_Z 1000000).
Proof. repeat split; vm_compute; reflexivity. Qed.

Lemma of_Z_0 : F32.of_Z 0 = F32.zero.
Proof. reflexivity. Qed.

(** Comparison is antisymmetric, NaN included. *)
Lemma SFcompare_antisym (a b : float) :
  SFcompare b a = option_map CompOpp (SFcompare a b).
Proof.
  destruct a as [s1|s1| |s1 m1 e1], b as [s2|s2| |s2 m2 e2]; simpl;
    try reflexivity;
    try (destruct s1; reflexivity);
    try (destruct s2; reflexivity);
    try (destruct s1, s2; reflexivity).
  destruct s1, s2; simpl; try reflexivity;
    rewrite (Z.compare_antisym e1 e2);
    destruct (e1 ?= e2); simpl; try reflexivity;
    rewrite (Pos.compare_cont_antisym m1 m2 Eq); reflexivity.
Qed.

(** For numbers, [a < b] fails exactly when [b <= a]. *)
Lemma ltb_false_leb (a b : float) :
  F32.is_nan a = false -> F32.is_nan b = false ->
  F32.ltb a b = negb (F32.leb b a).
Proof.
  intros Ha Hb. unfold F32.ltb, F32.leb, SFltb, SFleb.
  rewrite (SFcompare_antisym a b).
  destruct (SFcompare a b) as [[ | | ]|] eqn:E; simpl; try reflexivity.
  destruct a, b; simpl in *; try discriminate;
    repeat match goal with s : bool |- _ => destruct s end;
    simpl in E; discriminate.
Qed.

(** A true [b <= a] excludes [a < b], NaN or not. *)
Lemma leb_true_ltb_false (a b : float) :
  F32.leb b a = true -> F32.ltb a b = false.
Proof.
  unfold F32.ltb, F32.leb, SFltb, SFleb.
  rewrite (SFcompare_antisym a b).
  destruct (SFcompare a b) as [[ | | ]|]; simpl; congruence.
Qed.

(** Right shifts keep a significand non-negative. *)
Lemma shr_1_nonneg (r : shr_record) : 0 <= shr_m r -> 0 <= shr_m (shr_1 r).
Proof.
  destruct r as [m b s]; simpl.
  destruct m as [|p|p]; simpl; intros H; try lia.
  destruct p; simpl; lia.
Qed.

Lemma iter_shr_1_nonneg (p : positive) :
  forall r, 0 <= shr_m r -> 0 <= shr_m (iter_pos shr_1 p r).
Proof.
  induction p as [p IH|p IH|]; simpl; intros r H.
  - apply IH, IH, shr_1_nonneg, H.
  - apply IH, IH, H.
  - apply shr_1_nonneg, H.
Qed.

Lemma shr_fexp_nonneg (m e : Z) (l : location) :
  0 <= m -> 0 <= shr_m (fst (shr_fexp F32.prec F32.emax m e l)).
Proof.
  intros H. unfold shr_fexp, shr.
  assert (H0 : 0 <= shr_m (shr_record_of_loc m l))
    by (destruct l as [|[ | | ]]; simpl; exact H).
  destruct (fexp F32.prec F32.emax (Zdigits2 m + e) - e); simpl;
    try exact H0.
  apply iter_shr_1_nonneg, H0.
Qed.

Lemma round_nearest_even_nonneg (m : Z) (l : location) :
  0 <= m -> 0 <= round_nearest_even m l.
Proof.
  intros H. destruct l as [|[ | | ]]; simpl; try lia.
  destruct (Z.even m); lia.
Qed.

(** Rounding a non-negative significand never produces NaN. *)
Lemma binary_round_aux_not_nan (s : bool) (m e : Z) (l : location) :
  0 <= m ->
  F32.is_nan (binary_round_aux F32.prec F32.emax s m e l) = false.
Proof.
  intros H. unfold binary_round_aux.
  pose proof (shr_fexp_nonneg m e l H) as H1.
  destruct (shr_fexp F32.prec F32.emax m e l) as [r1 e1]; simpl in H1.
  pose proof (shr_fexp_nonneg
                (round_nearest_even (shr_m r1) (loc_of_shr_record r1))
                e1 loc_Exact
                (round_nearest_even_nonneg _ _ H1)) as H2.
  destruct (shr_fexp F32.prec F32.emax
              (round_nearest_even (shr_m r1) (loc_of_shr_record r1))
              e1 loc_Exact) as [r2 e2]; simpl in H2.
  destruct (shr_m r2) as [|p|p]; simpl; try reflexivity; try lia.
  destruct (e2 <=? _); reflexivity.
Qed.

Lemma binary_round_not_nan (s : bool) (m : positive) (e : Z) :
  F32.is_nan (binary_round F32.prec F32.emax s m e) = false.
Proof.
  unfold binary_round.
  destruct (shl_align m e _) as [mz ez].
  apply binary_round_aux_not_nan. lia.
Qed.

(** An integer converts to a number. *)
Lemma of_Z_not_nan (z : Z) : F32.is_nan (F32.of_Z z) = false.
Proof.
  unfold F32.of_Z, binary_normalize.
  destruct z; try reflexivity; apply binary_round_not_nan.
Qed.

(** The product of a number with a non-zero finite number is a number. *)
Lemma mul_finite_not_nan (a : float) (s : bool) (m : positive) (e : Z) :
  F32.is_nan a = false ->
  F32.is_nan (F32.mul a (S754_finite s m e)) = false.
Proof.
  destruct a as [sa|sa| |sa ma ea]; simpl; intros H;
    try reflexivity; try discriminate.
  apply binary_round_aux_not_nan. lia.
Qed.

(** A finite number times zero is a zero. *)
Lemma mul_zero_r (a : float) :
  F32.is_finite a = true -> F32.is_zero (F32.mul a F32.zero) = true.
Proof. destruct a; simpl; intros H; try reflexivity; discriminate. Qed.

(** A zero of either sign is not greater than 0. *)
Lemma zero_not_gt_0 (a : float) :
  F32.is_zero a = true -> F32.gtb a (F32.of_Z 0) = false.
Proof. destruct a; simpl; intros H; try reflexivity; discriminate. Qed.

(** *** Rounding as integer arithmetic

    The right-shift register of [SpecFloat] is related to integer
    division, which gives the significand and exponent that rounding
    produces; the results are used to locate the 5 second timeout on the
    microsecond clock. *)

Section RoundingArithmetic.
#[local] Arguments Z.mul : simpl never.
#[local] Arguments Z.add : simpl never.
#[local] Arguments Z.pow : simpl never.

(** The number of binary digits of a positive integer brackets it between
    two powers of 2. *)
Lemma digits2_bounds (p : positive) :
  2 ^ Zpos (digits2_pos p) <= 2 * Zpos p < 2 * 2 ^ Zpos (digits2_pos p).
Proof.
  induction p as [p IH|p IH|]; simpl digits2_pos.
  - rewrite Pos2Z.inj_succ, Z.pow_succ_r by lia. lia.
  - rewrite Pos2Z.inj_succ, Z.pow_succ_r by lia. lia.
  - simpl. lia.
Qed.

(** Before any shift the register holds the integer itself. *)
Lemma shr_inv_init (P : Z) :
  0 <= P -> F32.shr_inv P 1 (Build_shr_record P false false).
Proof. intros H. exists 0. simpl. lia. Qed.

(** One right shift doubles the divisor. *)
Lemma shr_inv_step (P pw : Z) (r : shr_record) :
  0 < pw -> F32.shr_inv P pw r -> F32.shr_inv P (2 * pw) (shr_1 r).
Proof.
  intros Hpw (rem & HP & Hrem & Hm & Hloc).
  destruct r as [m b s]. simpl in HP, Hm, Hloc.
  destruct m as [|[q|q|]|q]; try lia; simpl.
  - (* 0 *) exists rem. simpl. destruct b, s; simpl in *; try lia.
  - (* xI q *) exists (pw + rem). rewrite Pos2Z.inj_xI in HP. simpl.
    destruct b, s; simpl in *; nia.
  - exists rem. rewrite Pos2Z.inj_xO in HP. simpl.
    destruct b, s; simpl in *; nia.
  - exists (pw + rem). simpl. destruct b, s; simpl in *; nia.
Qed.

(** [k] right shifts multiply the divisor by [2^k]. *)
Lemma shr_inv_iter (P : Z) (k : positive) :
  forall pw r, 0 < pw -> F32.shr_inv P pw r ->
               F32.shr_inv P (pw * 2 ^ Zpos k) (iter_pos shr_1 k r).
Proof.
  induction k as [k IH|k IH|]; intros pw r Hpw H; simpl iter_pos.
  - assert (E : 2 ^ Zpos k~1 = 2 * (2 ^ Zpos k * 2 ^ Zpos k)).
    { rewrite (Pos2Z.inj_xI k).
      replace (2 * Zpos k + 1) with (Zpos k + Zpos k + 1) by lia.
      rewrite !Z.pow_add_r, Z.pow_1_r by lia. ring. }
    replace (pw * 2 ^ Zpos k~1) with (2 * pw * 2 ^ Zpos k * 2 ^ Zpos k)
      by (rewrite E; ring).
    assert (0 < 2 ^ Zpos k) by (apply Z.pow_pos_nonneg; lia).
    apply IH; [nia|apply IH; [lia|apply shr_inv_step; assumption]].
  - assert (E : 2 ^ Zpos k~0 = 2 ^ Zpos k * 2 ^ Zpos k).
    { rewrite (Pos2Z.inj_xO k).
      replace (2 * Zpos k) with (Zpos k + Zpos k) by lia.
      rewrite Z.pow_add_r by lia. ring. }
    replace (pw * 2 ^ Zpos k~0) with (pw * 2 ^ Zpos k * 2 ^ Zpos k)
      by (rewrite E; ring).
    assert (0 < 2 ^ Zpos k) by (apply Z.pow_pos_nonneg; lia).
    apply IH; [nia|apply IH; assumption].
  - replace (pw * 2 ^ 1) with (2 * pw) by (rewrite Z.pow_1_r; ring).
    apply shr_inv_step; assumption.
Qed.

(** Rounding to nearest even moves a significand by at most half a unit. *)
Lemma round_nearest_even_inv (P pw : Z) (r : shr_record) :
  0 < pw -> F32.shr_inv P pw r ->
  let m := round_nearest_even (shr_m r) (loc_of_shr_record r) in
  shr_m r <= m <= shr_m r + 1 /\
  2 * P - pw <= 2 * m * pw <= 2 * P + pw.
Proof.
  intros Hpw (rem & HP & Hrem & Hm & Hloc). cbv zeta.
  destruct (loc_of_shr_record r) as [|[ | | ]]; simpl.
  - nia.
  - destruct (Z.even (shr_m r)); nia.
  - nia.
  - nia.
Qed.

(** Away from the subnormal range the exponent of a binary32 number with
    magnitude exponent [x] is [x - 24]. *)
Lemma fexp_above (x : Z) :
  -149 <= x - 24 -> fexp F32.prec F32.emax x = x - 24.
Proof. unfold fexp, emin, F32.prec, F32.emax. lia. Qed.

(** The bracket determines the number of digits. *)
Lemma digits2_unique (m : positive) (d : Z) :
  2 ^ (d - 1) <= Zpos m < 2 ^ d -> 0 < d -> Zpos (digits2_pos m) = d.
Proof.
  intros [Hlo Hhi] Hd.
  pose proof (digits2_bounds m) as [Blo Bhi].
  set (dm := Zpos (digits2_pos m)) in *.
  assert (Hdm : 0 < dm) by (unfold dm; lia).
  destruct (Z.lt_trichotomy dm d) as [L|[E|G]]; [exfalso|exact E|exfalso].
  - assert (2 ^ dm <= 2 ^ (d - 1)) by (apply Z.pow_le_mono_r; lia). lia.
  - assert (2 ^ d <= 2 ^ (dm - 1)) by (apply Z.pow_le_mono_r; lia).
    replace dm with (Z.succ (dm - 1)) in Blo by lia.
    rewrite Z.pow_succ_r in Blo by lia. lia.
Qed.

(** The first shift of a rounding: an integer of at least 24 bits is
    divided by the power of 2 that leaves 24 bits. *)
Lemma shr_fexp_first (p0 : positive) (e : Z) :
  24 <= Zpos (digits2_pos p0) ->
  -149 <= Zpos (digits2_pos p0) + e - 24 ->
  exists r1,
    shr_fexp F32.prec F32.emax (Zpos p0) e loc_Exact =
      (r1, e + (Zpos (digits2_pos p0) - 24)) /\
    F32.shr_inv (Zpos p0) (2 ^ (Zpos (digits2_pos p0) - 24)) r1.
Proof.
  intros Hd He. unfold shr_fexp. simpl Zdigits2.
  rewrite fexp_above by lia.
  replace (Zpos (digits2_pos p0) + e - 24 - e)
    with (Zpos (digits2_pos p0) - 24) by lia.
  destruct (Zpos (digits2_pos p0) - 24) as [|k|k] eqn:Ek; try lia.
  - eexists. split.
    + unfold shr. simpl. rewrite Z.add_0_r. reflexivity.
    + apply (shr_inv_init (Zpos p0)). lia.
  - eexists. split.
    + unfold shr. reflexivity.
    + replace (2 ^ Zpos k) with (1 * 2 ^ Zpos k) by ring.
      apply shr_inv_iter; [lia|]. apply shr_inv_init. lia.
Qed.

(** A 24-bit significand is not shifted. *)
Lemma shr_fexp_canonical (m : positive) (e : Z) :
  2 ^ 23 <= Zpos m < 2 ^ 24 -> -149 <= e ->
  shr_fexp F32.prec F32.emax (Zpos m) e loc_Exact =
    (Build_shr_record (Zpos m) false false, e).
Proof.
  intros Hm He. unfold shr_fexp. simpl Zdigits2.
  rewrite (digits2_unique m 24) by (simpl; lia).
  rewrite fexp_above by lia.
  replace (24 + e - 24 - e) with 0 by lia. reflexivity.
Qed.

(** Rounding [p0 * 2^e] to binary32, for [p0] of at least 24 bits and
    away from the subnormal range: the result has a 24-bit significand,
    its exponent is the one that leaves 24 bits or the next one, and its
    value is within half a unit in the last place of [p0 * 2^e]. *)
Lemma binary_round_aux_spec (p0 : positive) (e : Z) :
  24 <= Zpos (digits2_pos p0) ->
  -149 <= Zpos (digits2_pos p0) + e - 24 ->
  exists (M2 : positive) (e2 : Z),
    binary_round_aux F32.prec F32.emax false (Zpos p0) e loc_Exact =
      (if e2 <=? 104 then S754_finite false M2 e2
       else S754_infinity false) /\
    2 ^ 23 <= Zpos M2 < 2 ^ 24 /\
    (e2 = e + Zpos (digits2_pos p0) - 24 \/
     e2 = e + Zpos (digits2_pos p0) - 23) /\
    2 * Zpos p0 - 2 ^ (Zpos (digits2_pos p0) - 24)
      <= 2 * Zpos M2 * 2 ^ (e2 - e)
      <= 2 * Zpos p0 + 2 ^ (Zpos (digits2_pos p0) - 24).
Proof.
  intros Hd He.
  destruct (shr_fexp_first p0 e Hd He) as (r1 & E1 & Inv).
  pose proof (digits2_bounds p0) as [Blo Bhi].
  set (d := Zpos (digits2_pos p0)) in *.
  set (k := d - 24) in *.
  assert (Hk : 0 <= k) by (unfold k; lia).
  assert (Hpw : 0 < 2 ^ k) by (apply Z.pow_pos_nonneg; lia).
  assert (Ed : 2 ^ d = 2 ^ 24 * 2 ^ k).
  { replace d with (24 + k) by (unfold k; lia).
    rewrite Z.pow_add_r by lia. reflexivity. }
  pose proof (round_nearest_even_inv _ _ _ Hpw Inv) as R.
  cbv zeta in R. destruct R as [Rq Rb].
  set (M1 := round_nearest_even (shr_m r1) (loc_of_shr_record r1)) in *.
  destruct Inv as (rem & HP & Hrem & Hq & _).
  assert (Hq23 : 2 ^ 23 <= shr_m r1 < 2 ^ 24).
  { rewrite Ed in Blo, Bhi. change (2 ^ 24) with 16777216 in *.
    change (2 ^ 23) with 8388608. nia. }
  unfold binary_round_aux. rewrite E1. fold M1.
  assert (HM1 : 2 ^ 23 <= M1 <= 2 ^ 24) by lia.
  destruct (Z.eq_dec M1 (2 ^ 24)) as [Etop|Ntop].
  - (* the significand rounded up to 2^24: one more shift *)
    rewrite Etop. change (2 ^ 24) with 16777216.
    unfold shr_fexp. simpl Zdigits2.
    rewrite fexp_above by (simpl; lia).
    replace (25 + (e + k) - 24 - (e + k)) with 1 by lia.
    simpl.
    exists 8388608%positive, (e + k + 1). split; [reflexivity|].
    split; [simpl; lia|]. split; [right; unfold k; lia|].
    replace (e + k + 1 - e) with (Z.succ k) by lia.
    rewrite Z.pow_succ_r by lia.
    rewrite Etop in Rb. change (2 ^ 24) with 16777216 in Rb.
    fold k. lia.
  - destruct M1 as [|m1|m1] eqn:EM; try (change (2 ^ 23) with 8388608 in HM1; lia).
    rewrite shr_fexp_canonical by lia. simpl.
    exists m1, (e + k). split; [reflexivity|].
    split; [lia|]. split; [left; unfold k; lia|].
    replace (e + k - e) with k by lia. fold k. lia.
Qed.

(** The arithmetic of the timeout: for an integer [n] of at most 23 bits,
    any 24-bit significand [m2] and exponent [e2] within half a unit in
    the last place of [n * 8796093 * 2^-43] lies below 5.0 when
    [n < 5000000] and at or above 5.0 otherwise. *)
Lemma threshold_arith (n dn m P d m2 e2 : Z) :
  1 <= dn <= 23 ->
  2 ^ dn <= 2 * n < 2 * 2 ^ dn ->
  m = n * 2 ^ (24 - dn) ->
  P = m * 8796093 ->
  d = 47 \/ d = 48 ->
  2 ^ d <= 2 * P < 2 * 2 ^ d ->
  e2 = dn - 67 + d - 24 \/ e2 = dn - 67 + d - 23 ->
  2 ^ 23 <= m2 < 2 ^ 24 ->
  2 * P - 2 ^ (d - 24) <= 2 * m2 * 2 ^ (e2 - (dn - 67))
                       <= 2 * P + 2 ^ (d - 24) ->
  (n < 5000000 /\ (e2 < -21 \/ (e2 = -21 /\ m2 < 10485760))) \/
  (5000000 <= n /\ (-21 < e2 \/ (e2 = -21 /\ 10485760 <= m2))).
Proof.
  intros Hdn Hn Hm HP Hd HdP He2 Hm2 Hb.
  assert (C : dn = 1 \/ dn = 2 \/ dn = 3 \/ dn = 4 \/ dn = 5 \/ dn = 6 \/
              dn = 7 \/ dn = 8 \/ dn = 9 \/ dn = 10 \/ dn = 11 \/ dn = 12 \/
              dn = 13 \/ dn = 14 \/ dn = 15 \/ dn = 16 \/ dn = 17 \/
              dn = 18 \/ dn = 19 \/ dn = 20 \/ dn = 21 \/ dn = 22 \/
              dn = 23) by lia.
  clear Hdn.
  repeat (destruct C as [C|C]);
    destruct Hd as [Hd|Hd]; destruct He2 as [He2|He2];
    subst dn d e2 m P; eval_pow2; lia.
Qed.

(** Appending [j] zero bits multiplies by [2^j]. *)
Lemma pos_iter_xO (p j : positive) :
  Zpos (Pos.iter xO p j) = Zpos p * 2 ^ Zpos j.
Proof.
  induction j as [|j IH] using Pos.peano_ind.
  - simpl Pos.iter. rewrite Pos2Z.inj_xO, Z.pow_1_r. ring.
  - rewrite Pos.iter_succ, Pos2Z.inj_xO, IH, Pos2Z.inj_succ,
      Z.pow_succ_r by lia. ring.
Qed.

(** Conversion of a positive integer: a canonical significand, exact when
    the integer has at most 24 bits. *)
Lemma of_Z_pos_spec (p : positive) :
  exists (M : positive) (E : Z),
    F32.of_Z (Zpos p) =
      (if E <=? 104 then S754_finite false M E else S754_infinity false) /\
    2 ^ 23 <= Zpos M < 2 ^ 24 /\
    (Zpos (digits2_pos p) <= 24 ->
       E = Zpos (digits2_pos p) - 24 /\
       Zpos M = Zpos p * 2 ^ (24 - Zpos (digits2_pos p))) /\
    (24 <= Zpos (digits2_pos p) -> 0 <= E).
Proof.
  pose proof (digits2_bounds p) as [Blo Bhi].
  unfold F32.of_Z, binary_normalize, binary_round, shl_align.
  rewrite Z.add_0_r, fexp_above by lia.
  set (dn := Zpos (digits2_pos p)) in *.
  destruct (dn - 24 - 0) as [|j|j] eqn:Ej.
  - (* exactly 24 bits *)
    destruct (binary_round_aux_spec p 0) as (M & E & HE & HM & HEe & Hb);
      fold dn; try lia.
    fold dn in HEe, Hb.
    exists M, E. split; [exact HE|]. split; [exact HM|].
    replace (dn - 24) with 0 in Hb by lia. change (2 ^ 0) with 1 in Hb.
    assert (Edn : dn = 24) by lia. rewrite Edn in *.
    change (2 ^ 24) with 16777216 in *. change (2 ^ 23) with 8388608 in *.
    destruct HEe as [HEe|HEe]; rewrite HEe in Hb.
    + change (0 + 24 - 24 - 0) with 0 in Hb. change (2 ^ 0) with 1 in Hb.
      split; [intros _; split; [lia|change (2 ^ (24 - 24)) with 1; lia]|lia].
    + change (0 + 24 - 23 - 0) with 1 in Hb. change (2 ^ 1) with 2 in Hb.
      lia.
  - (* more than 24 bits: rounded *)
    destruct (binary_round_aux_spec p 0) as (M & E & HE & HM & HEe & Hb);
      fold dn; try lia.
    exists M, E. split; [exact HE|]. split; [exact HM|].
    fold dn in HEe. split; [intros; lia|lia].
  - (* fewer than 24 bits: aligned to 24 bits, exact *)
    assert (Hj : Zpos j = 24 - dn) by lia.
    assert (Hmz : Zpos (Pos.iter xO p j) = Zpos p * 2 ^ (24 - dn))
      by (rewrite pos_iter_xO, Hj; reflexivity).
    assert (Hpw : 2 ^ dn * 2 ^ (24 - dn) = 2 ^ 24).
    { rewrite <- Z.pow_add_r by lia. f_equal. lia. }
    assert (Hpos : 0 < 2 ^ (24 - dn)) by (apply Z.pow_pos_nonneg; lia).
    assert (Hd24 : Zpos (digits2_pos (Pos.iter xO p j)) = 24).
    { apply digits2_unique; [|lia]. rewrite Hmz.
      change (2 ^ (24 - 1)) with 8388608.
      change (2 ^ 24) with 16777216 in *. nia. }
    destruct (binary_round_aux_spec (Pos.iter xO p j) (dn - 24))
      as (M & E & HE & HM & HEe & Hb); rewrite ?Hd24; try lia.
    rewrite Hd24 in HEe, Hb.
    exists M, E. split; [exact HE|]. split; [exact HM|].
    change (2 ^ (24 - 24)) with 1 in Hb.
    change (2 ^ 24) with 16777216 in *. change (2 ^ 23) with 8388608 in *.
    destruct HEe as [HEe|HEe]; rewrite HEe in Hb.
    + replace (dn - 24 + 24 - 24 - (dn - 24)) with 0 in Hb by lia.
      change (2 ^ 0) with 1 in Hb.
      split; [intros _; split; [lia|lia]|lia].
    + replace (dn - 24 + 24 - 23 - (dn - 24)) with 1 in Hb by lia.
      change (2 ^ 1) with 2 in Hb. nia.
Qed.

(** Significands are compared as integers. *)
Lemma compare_cont_Eq (a b : positive) :
  Pos.compare_cont Eq a b = (Zpos a ?= Zpos b).
Proof. reflexivity. Qed.

(** Comparison of a canonical positive float with 5.0. *)
Lemma ltb_five (M : positive) (E : Z) :
  F32.ltb (S754_finite false M E) (F32.of_Z 5) =
    (E <? -21) || ((E =? -21) && (Zpos M <? 10485760)).
Proof.
  change (F32.of_Z 5) with (S754_finite false 10485760 (-21)).
  unfold F32.ltb, SFltb, SFcompare.
  rewrite compare_cont_Eq.
  destruct (Z.compare_spec E (-21)) as [H|H|H].
  - subst E. rewrite Z.ltb_irrefl, Z.eqb_refl. simpl.
    unfold Z.ltb. simpl. destruct (Pos.compare M 10485760); reflexivity.
  - replace (E <? -21) with true by (symmetry; apply Z.ltb_lt; lia).
    reflexivity.
  - replace (E <? -21) with false by (symmetry; apply Z.ltb_ge; lia).
    replace (E =? -21) with false by (symmetry; apply Z.eqb_neq; lia).
    reflexivity.
Qed.

(** The scaled clock difference is below 5.0 exactly when the difference
    is below 5 000 000 microseconds. *)
Theorem mul_1e_6_lt_5 (n : Z) :
  0 <= n ->
  F32.ltb (F32.mul (F32.of_Z n) F32.lit_1e_6) (F32.of_Z 5) = (n <? 5000000).
Proof.
  intros Hn. destruct n as [|p|p]; try lia.
  - reflexivity.
  - destruct (of_Z_pos_spec p) as (M & E & HE & HM & Hsmall & Hbig).
    pose proof (digits2_bounds p) as Bp.
    set (dn := Zpos (digits2_pos p)) in *.
    assert (Hdn : 1 <= dn) by (unfold dn; lia).
    rewrite HE.
    destruct (E <=? 104) eqn:EE.
    2:{ (* overflow: only for integers beyond every clock value *)
        assert (24 < dn) by (apply Z.leb_gt in EE; lia).
        assert (2 ^ 24 <= 2 ^ dn) by (apply Z.pow_le_mono_r; lia).
        change (2 ^ 24) with 16777216 in *.
        simpl. symmetry. apply Z.ltb_ge. lia. }
    (* the product, to be rounded *)
    unfold F32.mul, F32.lit_1e_6, SFmul. simpl xorb.
    set (P := (M * 8796093)%positive).
    assert (HP : Zpos P = Zpos M * 8796093) by reflexivity.
    change (2 ^ 23) with 8388608 in HM. change (2 ^ 24) with 16777216 in HM.
    assert (Hd : Zpos (digits2_pos P) = 47 \/ Zpos (digits2_pos P) = 48).
    { destruct (Z.lt_ge_cases (Zpos P) (2 ^ 47)) as [L|G].
      - left. apply digits2_unique; [|lia].
        change (2 ^ (47 - 1)) with 70368744177664.
        change (2 ^ 47) with 140737488355328 in *. lia.
      - right. apply digits2_unique; [|lia].
        change (2 ^ (48 - 1)) with 140737488355328.
        change (2 ^ 47) with 140737488355328 in *.
        change (2 ^ 48) with 281474976710656. lia. }
    pose proof (digits2_bounds P) as BP.
    assert (HE23 : -23 <= E).
    { destruct (Z.le_gt_cases dn 24) as [L|G]; [destruct (Hsmall L); lia|].
      assert (0 <= E) by (apply Hbig; lia). lia. }
    destruct (binary_round_aux_spec P (E + -43))
      as (M2 & e2 & HR & HM2 & He2 & Hb); try lia.
    rewrite HR. clear HR.
    set (d := Zpos (digits2_pos P)) in *.
    destruct (Z.le_gt_cases dn 23) as [Lsmall|Lbig].
    + (* at most 23 bits: the conversion is exact *)
      destruct Hsmall as [HEv HMv]; [lia|].
      assert (e2 <= 104) by lia.
      replace (e2 <=? 104) with true by (symmetry; apply Z.leb_le; lia).
      rewrite ltb_five.
      assert (A1 : 1 <= dn <= 23) by lia.
      assert (A2 : 2 ^ dn <= 2 * Zpos p < 2 * 2 ^ dn) by exact Bp.
      assert (A3 : e2 = dn - 67 + d - 24 \/ e2 = dn - 67 + d - 23) by lia.
      assert (A4 : 2 ^ 23 <= Zpos M2 < 2 ^ 24) by exact HM2.
      assert (A5 : 2 * Zpos P - 2 ^ (d - 24)
                   <= 2 * Zpos M2 * 2 ^ (e2 - (dn - 67))
                   <= 2 * Zpos P + 2 ^ (d - 24)).
      { replace (e2 - (dn - 67)) with (e2 - (E + -43)) by lia. exact Hb. }
      destruct (threshold_arith (Zpos p) dn (Zpos M) (Zpos P) d (Zpos M2) e2
                  A1 A2 HMv HP Hd BP A3 A4 A5) as [[B1 B2]|[B1 B2]].
      * replace (Zpos p <? 5000000) with true
          by (symmetry; apply Z.ltb_lt; lia).
        destruct B2 as [B2|[B2 B3]].
        -- replace (e2 <? -21) with true
             by (symmetry; apply Z.ltb_lt; lia).
           reflexivity.
        -- rewrite B2.
           replace (Zpos M2 <? 10485760) with true
             by (symmetry; apply Z.ltb_lt; lia).
           reflexivity.
      * replace (Zpos p <? 5000000) with false
          by (symmetry; apply Z.ltb_ge; lia).
        destruct B2 as [B2|[B2 B3]].
        -- replace (e2 <? -21) with false
             by (symmetry; apply Z.ltb_ge; lia).
           replace (e2 =? -21) with false
             by (symmetry; apply Z.eqb_neq; lia).
           reflexivity.
        -- rewrite B2.
           replace (Zpos M2 <? 10485760) with false
             by (symmetry; apply Z.ltb_ge; lia).
           reflexivity.
    + (* at least 24 bits: at least 8 seconds *)
      assert (0 <= E) by (apply Hbig; lia).
      assert (2 ^ 24 <= 2 ^ dn) by (apply Z.pow_le_mono_r; lia).
      change (2 ^ 24) with 16777216 in *.
      replace (Zpos p <? 5000000) with false
        by (symmetry; apply Z.ltb_ge; lia).
      destruct (e2 <=? 104); [|reflexivity].
      rewrite ltb_five.
      replace (e2 <? -21) with false by (symmetry; apply Z.ltb_ge; lia).
      replace (e2 =? -21) with false by (symmetry; apply Z.eqb_neq; lia).
      reflexivity.
Qed.

End RoundingArithmetic.

End F32Facts.

(** ** Vehicle state estimator *)

Section VehicleStateEstimator.
Context {C : Collaborators}.

(** The elapsed time is always a number. *)
Lemma elapsed_sec_not_nan (hal : HAL) (t : Tracker) :
  F32.is_nan (elapsed_sec hal t) = false.
Proof.
  unfold elapsed_sec, F32.lit_1e_6.
  apply F32Facts.mul_finite_not_nan, F32Facts.of_Z_not_nan.
Qed.

(** No time elapsed: [dt] is [+0]. *)
Lemma elapsed_sec_zero (hal : HAL) (t : Tracker) :
  u32 (micros hal - last_update_us (vehicle t)) = 0 ->
  elapsed_sec hal t = F32.zero.
Proof. unfold elapsed_sec. intros ->. reflexivity. Qed.

(** The estimator writes [vehicle] only, and there only the estimate and
    the validity flag. *)
Lemma update_vehicle_pos_estimate_frame (hal : HAL) (t : Tracker) :
  let t' := update_vehicle_pos_estimate hal t in
  nav_status t' = nav_status t /\ current_loc t' = current_loc t /\
  old_loc t' = old_loc t /\ control_mode t' = control_mode t /\
  g t' = g t /\ start_time_ms t' = start_time_ms t /\
  delay_timer t' = delay_timer t /\ servo_out t' = servo_out t /\
  location (vehicle t') = location (vehicle t) /\
  heading (vehicle t') = heading (vehicle t) /\
  ground_speed (vehicle t') = ground_speed (vehicle t) /\
  last_update_us (vehicle t') = last_update_us (vehicle t) /\
  last_update_ms (vehicle t') = last_update_ms (vehicle t).
Proof.
  unfold update_vehicle_pos_estimate.
  destruct (F32.ltb _ TRACKING_TIMEOUT_SEC); simpl; repeat split.
Qed.

(** The unsigned 32-bit difference is a clock value. *)
Lemma u32_range (z : Z) : 0 <= u32 z < 2 ^ 32.
Proof. unfold u32. apply Z.mod_pos_bound. reflexivity. Qed.

(** On the microsecond clock the timeout is at 5 000 000: the binary32
    [dt] is below [5.0f] exactly when the 32-bit clock difference is below
    5 000 000 microseconds. *)
Lemma elapsed_sec_threshold (hal : HAL) (t : Tracker) :
  F32.ltb (elapsed_sec hal t) TRACKING_TIMEOUT_SEC =
    (u32 (micros hal - last_update_us (vehicle t)) <? 5000000).
Proof.
  unfold elapsed_sec, TRACKING_TIMEOUT_SEC.
  apply F32Facts.mul_1e_6_lt_5. apply u32_range.
Qed.

(** C1.  A tick of the vehicle state estimator computes [dt] from the
    microsecond clock; [dt] is below the 5.0 s timeout exactly when fewer
    than 5 000 000 microseconds have elapsed, and at least the timeout
    otherwise.  Below the timeout the estimate becomes the last-known
    location advanced by [location_update] along the last-known heading
    by [ground_speed * dt], and [location_valid] becomes true.  At or
    above the timeout [location_valid] becomes false whatever it was and
    the estimate is left as it was.  With no time elapsed [dt] is 0, and
    the estimate is the last-known location itself, given a finite ground
    speed and a [location_update] that leaves the last-known location in
    place at distance zero. *)
Theorem C1_vehicle_pos_estimate (hal : HAL) (t : Tracker) :
  let v := vehicle t in
  let us := u32 (micros hal - last_update_us v) in
  let dt := elapsed_sec hal t in
  let v' := vehicle (update_vehicle_pos_estimate hal t) in
  (F32.ltb dt TRACKING_TIMEOUT_SEC = true <-> us < 5000000) /\
  (F32.leb TRACKING_TIMEOUT_SEC dt = true <-> 5000000 <= us) /\
  (F32.ltb dt TRACKING_TIMEOUT_SEC = true ->
     location_estimate v' =
       location_update (location v) (heading v)
                       (F32.mul (ground_speed v) dt) /\
     location_valid v' = true) /\
  (F32.leb TRACKING_TIMEOUT_SEC dt = true ->
     location_valid v' = false /\
     location_estimate v' = location_estimate v) /\
  (us = 0 ->
   F32.is_finite (ground_speed v) = true ->
   (forall z, F32.is_zero z = true ->
      location_update (location v) (heading v) z = location v) ->
     dt = F32.zero /\
     location_estimate v' = location v /\
     location_valid v' = true).
Proof.
  cbv zeta.
  pose proof (elapsed_sec_threshold hal t) as Hth.
  pose proof (F32Facts.ltb_false_leb (elapsed_sec hal t)
                TRACKING_TIMEOUT_SEC (elapsed_sec_not_nan hal t) eq_refl)
    as Hneg.
  split; [|split; [|split; [|split]]].
  - rewrite Hth. apply Z.ltb_lt.
  - rewrite Hneg in Hth.
    destruct (F32.leb TRACKING_TIMEOUT_SEC (elapsed_sec hal t));
      simpl in Hth; symmetry in Hth.
    + apply Z.ltb_ge in Hth. split; auto.
    + apply Z.ltb_lt in Hth. split; [discriminate|lia].
  - intros Hlt. unfold update_vehicle_pos_estimate.
    fold (elapsed_sec hal t). rewrite Hlt. simpl. split; reflexivity.
  - intros Hge. apply F32Facts.leb_true_ltb_false in Hge.
    unfold update_vehicle_pos_estimate.
    fold (elapsed_sec hal t). rewrite Hge. simpl. split; reflexivity.
  - intros Hz Hfin Hid.
    pose proof (elapsed_sec_zero hal t Hz) as Hdt.
    unfold update_vehicle_pos_estimate.
    fold (elapsed_sec hal t). rewrite Hdt.
    replace (F32.ltb F32.zero TRACKING_TIMEOUT_SEC) with true
      by reflexivity.
    simpl. repeat split.
    apply Hid, F32Facts.mul_zero_r, Hfin.
Qed.

End VehicleStateEstimator.

(** ** Tracker position filter *)

Section TrackerPositionFilter.
Context {C : Collaborators}.

(** Without an adequate fix the tracker position is frozen. *)
Lemma update_tracker_position_no_fix (hal : HAL) (t : Tracker) :
  fix_adequate hal = false -> update_tracker_position hal t = t.
Proof.
  unfold fix_adequate, update_tracker_position. intros ->. reflexivity.
Qed.

(** The filter writes the two tracker locations only. *)
Lemma update_tracker_position_frame (hal : HAL) (t : Tracker) :
  let t' := update_tracker_position hal t in
  vehicle t' = vehicle t /\ nav_status t' = nav_status t /\
  control_mode t' = control_mode t /\ g t' = g t /\
  start_time_ms t' = start_time_ms t /\ delay_timer t' = delay_timer t /\
  servo_out t' = servo_out t.
Proof.
  unfold update_tracker_position.
  destruct (_ <=? _); simpl; repeat split.
Qed.

(** C3 (as amended).  With an adequate fix the filter stores one blended
    location as both the current and the previous smoothed location.  On
    every fix that finds a previous location other than the zero
    sentinel, each axis is the binary32 blend [0.95f*old + 0.05f*raw]
    truncated to an integer.  On the first fix (previous location equal
    to the zero sentinel) the previous location is replaced by the raw
    fix and the same blend is applied, so each axis is the blend of the
    raw coordinate with itself. *)
Theorem C3_tracker_position_filter (hal : HAL) (t : Tracker) :
  fix_adequate hal = true ->
  let raw := gps_location hal in
  let t' := update_tracker_position hal t in
  old_loc t' = current_loc t' /\
  (is_zero_sentinel (old_loc t) = false ->
     current_loc t' = ema_location (old_loc t) raw) /\
  (is_zero_sentinel (old_loc t) = true ->
     current_loc t' = ema_location raw raw).
Proof.
  unfold fix_adequate, is_zero_sentinel, update_tracker_position.
  intros ->. cbv zeta. split; [reflexivity|].
  split; intros ->; reflexivity.
Qed.

End TrackerPositionFilter.

(** ** Bearing, distance and pitch calculator *)

Section Calculator.
Context {C : Collaborators}.

(** C5.  When the vehicle position is invalid, or the control mode is
    SERVO_TEST, [update_bearing_and_distance] returns the tracker as it
    received it; in particular every field of [nav_status] is
    unchanged. *)
Theorem C5_calculator_gate (t : Tracker) :
  location_valid (vehicle t) = false \/ control_mode t = SERVO_TEST ->
  update_bearing_and_distance t = t /\
  nav_status (update_bearing_and_distance t) = nav_status t.
Proof.
  intros H. assert (E : update_bearing_and_distance t = t).
  { unfold update_bearing_and_distance.
    destruct H as [-> | ->]; simpl; [reflexivity|].
    rewrite orb_true_r. reflexivity. }
  rewrite E. split; reflexivity.
Qed.

(** The calculator writes [nav_status] only. *)
Lemma update_bearing_and_distance_frame (t : Tracker) :
  let t' := update_bearing_and_distance t in
  vehicle t' = vehicle t /\ current_loc t' = current_loc t /\
  old_loc t' = old_loc t /\ control_mode t' = control_mode t /\
  g t' = g t /\ start_time_ms t' = start_time_ms t /\
  delay_timer t' = delay_timer t /\ servo_out t' = servo_out t.
Proof.
  unfold update_bearing_and_distance.
  destruct (_ || _); simpl; repeat split.
Qed.

(** The calculator never writes the altitude fusion fields nor the
    override flags. *)
Lemma update_bearing_and_distance_keeps (t : Tracker) :
  let n := nav_status t in
  let n' := nav_status (update_bearing_and_distance t) in
  altitude_difference n' = altitude_difference n /\
  altitude_offset n' = altitude_offset n /\
  manual_control_yaw n' = manual_control_yaw n /\
  manual_control_pitch n' = manual_control_pitch n /\
  need_altitude_calibration n' = need_altitude_calibration n.
Proof.
  unfold update_bearing_and_distance.
  destruct t as [v [b d p ad ao my mp nc] cur old mode prm st dtm so].
  simpl. destruct (_ || _); simpl; [repeat split|].
  destruct (negb (ControlMode_eqb mode SCAN)), my, mp; simpl;
    repeat split.
Qed.

Lemma ControlMode_eqb_eq (a b : ControlMode) :
  ControlMode_eqb a b = true <-> a = b.
Proof. destruct a, b; simpl; split; congruence. Qed.

Lemma ControlMode_eqb_neq (a b : ControlMode) :
  ControlMode_eqb a b = false <-> a <> b.
Proof. destruct a, b; simpl; split; congruence. Qed.

(** C6.  On a calculator tick with a valid vehicle position and a mode
    other than SERVO_TEST: the distance is always set to [get_distance]
    from the tracker's current position to the vehicle estimate; the
    bearing is set to [get_bearing_cd] scaled to degrees unless the mode
    is SCAN or the manual-yaw override is on, in which case it is left
    as it was; the pitch is set to the arctangent ([atan2f]) of the
    altitude difference over the new distance, in degrees, unless the
    mode is SCAN or the manual-pitch override is on, in which case it is
    left as it was. *)
Theorem C6_bearing_distance_pitch (t : Tracker) :
  location_valid (vehicle t) = true ->
  control_mode t <> SERVO_TEST ->
  let n := nav_status t in
  let n' := nav_status (update_bearing_and_distance t) in
  let est := location_estimate (vehicle t) in
  distance n' = get_distance (current_loc t) est /\
  (control_mode t = SCAN \/ manual_control_yaw n = true ->
     bearing n' = bearing n) /\
  (control_mode t <> SCAN -> manual_control_yaw n = false ->
     bearing n' =
       F32.mul (F32.of_Z (get_bearing_cd (current_loc t) est))
               F32.lit_0_01) /\
  (control_mode t = SCAN \/ manual_control_pitch n = true ->
     pitch n' = pitch n) /\
  (control_mode t <> SCAN -> manual_control_pitch n = false ->
     pitch n' =
       degrees (atan2f (altitude_difference n)
                       (get_distance (current_loc t) est))).
Proof.
  destruct t as [v [b d p ad ao my mp nc] cur old mode prm st dtm so].
  simpl. intros Hv Hm. unfold update_bearing_and_distance. simpl.
  rewrite Hv. apply ControlMode_eqb_neq in Hm. rewrite Hm. simpl.
  destruct (ControlMode_eqb mode SCAN) eqn:Es; simpl.
  - apply ControlMode_eqb_eq in Es.
    repeat split; intros; try reflexivity; contradiction.
  - apply ControlMode_eqb_neq in Es.
    destruct my, mp; simpl;
      repeat split; intros; try reflexivity; try discriminate;
      match goal with
      | H : _ \/ _ |- _ => destruct H; [contradiction|discriminate]
      end.
Qed.

End Calculator.

(** ** Altitude fusion *)

Section AltitudeFusion.
Context {C : Collaborators}.

(** The estimation stage of a tick never writes the altitude fusion
    fields: whatever the clock, the fix and the mode, the altitude
    difference and offset come out as they went in. *)
Lemma estimation_stage_keeps_altitude (hal : HAL) (t : Tracker) :
  altitude_difference (nav_status (estimation_stage hal t)) =
    altitude_difference (nav_status t) /\
  altitude_offset (nav_status (estimation_stage hal t)) =
    altitude_offset (nav_status t).
Proof.
  unfold estimation_stage.
  pose proof (update_bearing_and_distance_keeps
                (update_tracker_position hal
                   (update_vehicle_pos_estimate hal t))) as K.
  cbv zeta in K. destruct K as (K1 & K2 & _).
  pose proof (update_tracker_position_frame hal
                (update_vehicle_pos_estimate hal t)) as P.
  cbv zeta in P. destruct P as (_ & P & _).
  pose proof (update_vehicle_pos_estimate_frame hal t) as V.
  cbv zeta in V. destruct V as (V & _).
  rewrite K1, K2, P, V. split; reflexivity.
Qed.

(** C7.  In barometric mode ([alt_source] 0), for a pressure sample whose
    differential altitude is [alt_diff]: the fused value is the previous
    altitude difference when [alt_diff] is NaN (the sample is dropped)
    and [alt_diff] plus the offset otherwise.  Without a pending
    calibration the altitude difference becomes the fused value and the
    offset is kept.  With a pending calibration the offset becomes the
    negation of the fused value, the altitude difference becomes 0 and
    the pending flag is cleared; so calibrating at a fused value of 12.0
    leaves offset -12.0, difference 0 and no pending flag. *)
Theorem C7_pressure_fusion
    (hal : HAL) (msg : mavlink_scaled_pressure_t) (t : Tracker) :
  alt_source (g t) = 0 ->
  let n := nav_status t in
  let n' := nav_status (tracking_update_pressure hal msg t) in
  let alt_diff :=
    baro_get_altitude_difference hal (baro_get_pressure hal)
      (F32.mul (msg_press_abs msg) F32.lit_100) in
  let fused :=
    if F32.is_nan alt_diff then altitude_difference n
    else F32.add alt_diff (altitude_offset n) in
  (need_altitude_calibration n = false ->
     altitude_difference n' = fused /\
     altitude_offset n' = altitude_offset n /\
     need_altitude_calibration n' = false) /\
  (need_altitude_calibration n = true ->
     altitude_offset n' = F32.opp fused /\
     altitude_difference n' = F32.zero /\
     need_altitude_calibration n' = false) /\
  (need_altitude_calibration n = true -> fused = F32.of_Z 12 ->
     altitude_offset n' = F32.opp (F32.of_Z 12) /\
     altitude_difference n' = F32.zero /\
     need_altitude_calibration n' = false) /\
  bearing n' = bearing n /\ distance n' = distance n /\
  pitch n' = pitch n /\
  manual_control_yaw n' = manual_control_yaw n /\
  manual_control_pitch n' = manual_control_pitch n.
Proof.
  destruct t as [v [b d p ad ao my mp nc] cur old mode prm st dtm so].
  generalize (F32.of_Z 12). intros twelve.
  simpl. intros Hsrc. unfold tracking_update_pressure. simpl.
  rewrite Hsrc. simpl.
  destruct (F32.is_nan _) eqn:En; simpl;
    destruct nc; simpl;
    repeat split; intros; try reflexivity; try discriminate;
    congruence.
Qed.

(** Outside barometric mode a pressure sample changes nothing. *)
Lemma tracking_update_pressure_other_source
    (hal : HAL) (msg : mavlink_scaled_pressure_t) (t : Tracker) :
  alt_source (g t) <> 0 -> tracking_update_pressure hal msg t = t.
Proof.
  intros H. unfold tracking_update_pressure.
  apply Z.eqb_neq in H. rewrite H. reflexivity.
Qed.

End AltitudeFusion.

(** ** Manual control *)

Section ManualControl.
Context {C : Collaborators}.

(** C8.  Handling a manual-control sample (x, y) sets the distance to 0,
    sets the yaw override exactly when x is not 0x7FFF and the pitch
    override exactly when y is not 0x7FFF; for x = 0x7FFF and y = 100
    the yaw override is false, the pitch override true and the distance
    0. *)
Theorem C8_manual_control_flags
    (msg : mavlink_manual_control_t) (t : Tracker) :
  let n' := nav_status (tracking_manual_control msg t) in
  distance n' = F32.zero /\
  (manual_control_yaw n' = true <-> msg_x msg <> 0x7FFF) /\
  (manual_control_pitch n' = true <-> msg_y msg <> 0x7FFF) /\
  (msg_x msg = 0x7FFF -> msg_y msg = 100 ->
     manual_control_yaw n' = false /\
     manual_control_pitch n' = true /\
     distance n' = F32.zero).
Proof.
  cbv zeta. unfold tracking_manual_control. simpl.
  split; [reflexivity|].
  split; [|split].
  - rewrite negb_true_iff. apply Z.eqb_neq.
  - rewrite negb_true_iff. apply Z.eqb_neq.
  - intros -> ->. repeat split.
Qed.

(** 32767 is a binary32 value: the sentinel is stored without
    rounding. *)
Lemma sentinel_as_float :
  F32.of_Z 0x7FFF = SpecFloat.S754_finite false 16776704 (-9) /\
  F32.to_int32 (F32.of_Z 0x7FFF) = 32767.
Proof. split; reflexivity. Qed.

(** C9.  Handling a manual-control sample always stores x in the bearing
    and y in the pitch.  An axis that carries the sentinel 0x7FFF
    therefore holds 32767 with its override flag false, instead of
    keeping its previous command; the value stays through calculator
    ticks that are gated off or in SCAN, and is replaced by the computed
    value on the next calculator tick with a valid vehicle position in a
    mode other than SERVO_TEST and SCAN. *)
Theorem C9_manual_control_overwrites
    (msg : mavlink_manual_control_t) (t : Tracker) :
  let t' := tracking_manual_control msg t in
  let n' := nav_status t' in
  let n'' := nav_status (update_bearing_and_distance t') in
  let calculating :=
    location_valid (vehicle t)
    && negb (ControlMode_eqb (control_mode t) SERVO_TEST)
    && negb (ControlMode_eqb (control_mode t) SCAN) in
  bearing n' = F32.of_Z (msg_x msg) /\
  pitch n' = F32.of_Z (msg_y msg) /\
  (msg_x msg = 0x7FFF ->
     bearing n' = F32.of_Z 32767 /\
     manual_control_yaw n' = false /\
     bearing n'' =
       if calculating
       then F32.mul (F32.of_Z (get_bearing_cd (current_loc t)
                                 (location_estimate (vehicle t))))
                    F32.lit_0_01
       else F32.of_Z 32767) /\
  (msg_y msg = 0x7FFF ->
     pitch n' = F32.of_Z 32767 /\
     manual_control_pitch n' = false /\
     pitch n'' =
       if calculating
       then degrees (atan2f (altitude_difference (nav_status t))
                       (get_distance (current_loc t)
                          (location_estimate (vehicle t))))
       else F32.of_Z 32767).
Proof.
  destruct t as [[valid loc est lus lms hd gs] [b d p ad ao my mp nc]
                   cur old mode prm st dtm so].
  cbv zeta. unfold tracking_manual_control, update_bearing_and_distance.
  simpl. split; [reflexivity|]. split; [reflexivity|].
  split; intros ->; simpl; (split; [reflexivity|]);
    (split; [reflexivity|]);
    destruct valid, mode; simpl; try reflexivity;
    destruct (negb (_ =? 32767)); reflexivity.
Qed.

End ManualControl.

(** ** Mode orchestrator and the INITIALISING state *)

Section ModeOrchestrator.
Context {C : Collaborators}.

(** The estimation stage leaves the mode, the parameters and the timers
    alone. *)
Lemma estimation_stage_frame (hal : HAL) (t : Tracker) :
  let t' := estimation_stage hal t in
  control_mode t' = control_mode t /\ g t' = g t /\
  start_time_ms t' = start_time_ms t /\ delay_timer t' = delay_timer t /\
  servo_out t' = servo_out t.
Proof.
  cbv zeta. unfold estimation_stage.
  pose proof (update_bearing_and_distance_frame
                (update_tracker_position hal
                   (update_vehicle_pos_estimate hal t))) as K.
  cbv zeta in K. destruct K as (_ & _ & _ & K1 & K2 & K3 & K4 & K5).
  pose proof (update_tracker_position_frame hal
                (update_vehicle_pos_estimate hal t)) as P.
  cbv zeta in P. destruct P as (_ & _ & P1 & P2 & P3 & P4 & P5).
  pose proof (update_vehicle_pos_estimate_frame hal t) as V.
  cbv zeta in V. destruct V as (_ & _ & _ & V1 & V2 & V3 & V4 & V5 & _).
  rewrite K1, K2, K3, K4, K5, P1, P2, P3, P4, P5.
  repeat split; assumption.
Qed.

(** What [update_initialising] does to the mode and to [delay_timer]. *)
Lemma update_initialising_mode_timer (hal : HAL) (t : Tracker) :
  let t' := update_initialising hal t in
  delay_timer t' = settle_timer_after hal t /\
  g t' = g t /\
  control_mode t' =
    if in_settle_band hal
       && negb (delay_pending (g t) (millis hal) (settle_timer_after hal t))
    then AUTO
    else control_mode t.
Proof.
  destruct t as [v n cur old mode prm st dtm so].
  cbv zeta. unfold update_initialising, settle_timer_after.
  simpl.
  destruct (in_settle_band hal); simpl; [|repeat split; reflexivity].
  destruct (dtm =? 0); simpl;
    destruct (delay_pending prm (millis hal) _); simpl;
    repeat split; reflexivity.
Qed.

(** C2 (as amended).  A call of [update_initialising] in INITIALISING
    switches to AUTO if and only if the attitude pitch is inside the
    (40, 50) degree band on that call and the startup delay is not
    pending against [delay_timer], that is, the delay is not positive or
    at least the delay has passed since [delay_timer] was latched.
    [delay_timer] is latched to the clock by an in-band call that finds
    it at 0 and is otherwise kept: a call with the pitch outside the band
    leaves it, and the mode, as they were. *)
Theorem C2_initialising_settle (hal : HAL) (t : Tracker) :
  control_mode t = INITIALISING ->
  let t' := update_initialising hal t in
  delay_timer t' = settle_timer_after hal t /\
  (control_mode t' = AUTO <->
     in_settle_band hal = true /\
     delay_pending (g t) (millis hal) (settle_timer_after hal t) = false) /\
  (control_mode t' = AUTO \/ control_mode t' = INITIALISING) /\
  (in_settle_band hal = false ->
     delay_timer t' = delay_timer t /\ control_mode t' = INITIALISING).
Proof.
  intros Hm. cbv zeta.
  pose proof (update_initialising_mode_timer hal t) as H.
  cbv zeta in H. destruct H as (Ht & _ & Hc).
  rewrite Ht, Hc, Hm. split; [reflexivity|].
  generalize (delay_pending (g t) (millis hal) (settle_timer_after hal t)).
  intros pending. unfold settle_timer_after.
  destruct (in_settle_band hal), pending; simpl.
  - split; [split; [discriminate|intros [_ K]; discriminate]|].
    split; [right; reflexivity|discriminate].
  - split; [split; [split; reflexivity|reflexivity]|].
    split; [left; reflexivity|discriminate].
  - split; [split; [discriminate|intros [K _]; discriminate]|].
    split; [right; reflexivity|split; reflexivity].
  - split; [split; [discriminate|intros [K _]; discriminate]|].
    split; [right; reflexivity|split; reflexivity].
Qed.

(** However long the pitch stays outside the band, the settle timer keeps
    the value it had when the pitch left the band, and the mode stays
    INITIALISING. *)
Lemma run_initialising_out_of_band (hs : list HAL) :
  forall t,
    Forall (fun h => in_settle_band h = false) hs ->
    control_mode t = INITIALISING ->
    delay_timer (run_initialising hs t) = delay_timer t /\
    control_mode (run_initialising hs t) = INITIALISING.
Proof.
  induction hs as [|h hs IH]; intros t Hout Hm; simpl.
  - split; [reflexivity|exact Hm].
  - inversion Hout as [|h' hs' Hh Hrest]; subst.
    pose proof (update_initialising_mode_timer h t) as H.
    cbv zeta in H. destruct H as (Ht & _ & Hc).
    unfold settle_timer_after in Ht. rewrite Hh in Ht, Hc. simpl in Ht, Hc.
    destruct (IH (update_initialising h t) Hrest) as [IH1 IH2].
    + rewrite Hc. exact Hm.
    + split; [rewrite IH1; exact Ht|exact IH2].
Qed.

(** A startup delay of zero is never pending. *)
Lemma delay_pending_zero (p : Parameters) (now since : Z) :
  F32.is_zero (startup_delay p) = true -> delay_pending p now since = false.
Proof.
  intros H. unfold delay_pending.
  rewrite (F32Facts.zero_not_gt_0 _ H). reflexivity.
Qed.

(** With a startup delay of zero the wait of [update_initialising] is
    void, and a run of calls ends in AUTO exactly when one of the
    readings had the pitch inside the band. *)
Lemma run_initialising_zero_delay (hs : list HAL) :
  forall t,
    F32.is_zero (startup_delay (g t)) = true ->
    control_mode (run_initialising hs t) =
      if existsb in_settle_band hs then AUTO else control_mode t.
Proof.
  induction hs as [|h hs IH]; intros t Hz; simpl; [reflexivity|].
  pose proof (update_initialising_mode_timer h t) as H.
  cbv zeta in H. destruct H as (_ & Hg & Hc).
  rewrite IH by (rewrite Hg; exact Hz).
  rewrite Hc, (delay_pending_zero _ _ _ Hz).
  destruct (in_settle_band h); simpl;
    destruct (existsb in_settle_band hs); reflexivity.
Qed.

(** One tick in INITIALISING with a startup delay of zero: the
    parameters are kept, and the mode after the tick is AUTO if the pitch
    is inside the band and the safety switch does not stop the tick, and
    INITIALISING otherwise. *)
Lemma zero_delay_tick_in_initialising (hal : HAL) (t : Tracker) :
  F32.is_zero (startup_delay (g t)) = true ->
  control_mode t = INITIALISING ->
  g (update_tracking hal t) = g t /\
  control_mode (update_tracking hal t) =
    if in_settle_band hal
       && negb (is_SAFETY_DISARMED (safety_switch_state hal))
    then AUTO
    else INITIALISING.
Proof.
  intros Hz Hm.
  pose proof (estimation_stage_frame hal t) as F.
  cbv zeta in F. destruct F as (Fm & Fg & _).
  pose proof (update_initialising_mode_timer hal (estimation_stage hal t))
    as H.
  cbv zeta in H. destruct H as (_ & Hg & Hc).
  rewrite Fg, (delay_pending_zero _ _ _ Hz), Fm, Hm in Hc.
  unfold update_tracking. cbv zeta.
  rewrite Fg, (delay_pending_zero _ _ _ Hz).
  destruct (is_SAFETY_DISARMED (safety_switch_state hal)).
  - rewrite Fg, Fm, Hm, andb_false_r. split; reflexivity.
  - unfold mode_dispatch. rewrite Fm, Hm, Hg, Fg, Hc, andb_true_r.
    split; [reflexivity|].
    destruct (in_settle_band hal); reflexivity.
Qed.

(** Ticks in INITIALISING with the pitch outside the band, with a startup
    delay of zero, leave the mode and the parameters as they were. *)
Lemma run_tracking_out_of_band_zero_delay (hs : list HAL) :
  forall t,
    F32.is_zero (startup_delay (g t)) = true ->
    control_mode t = INITIALISING ->
    Forall (fun h => in_settle_band h = false) hs ->
    g (run_tracking hs t) = g t /\
    control_mode (run_tracking hs t) = INITIALISING.
Proof.
  induction hs as [|h hs IH]; intros t Hz Hm Hout; simpl.
  - split; [reflexivity|exact Hm].
  - inversion Hout as [|h' hs' Hh Hrest]; subst.
    destruct (zero_delay_tick_in_initialising h t Hz Hm) as (Tg & Tm).
    rewrite Hh in Tm. simpl in Tm.
    destruct (IH (update_tracking h t)) as (IHg & IHm);
      [rewrite Tg; exact Hz|exact Tm|exact Hrest|].
    split; [rewrite IHg; exact Tg|exact IHm].
Qed.

(** A run of ticks followed by one more tick. *)
Lemma run_tracking_app (hs : list HAL) (h : HAL) :
  forall t,
    run_tracking (hs ++ [h]) t = update_tracking h (run_tracking hs t).
Proof.
  induction hs as [|k hs IH]; intros t; simpl; [reflexivity|apply IH].
Qed.

(** C10.  With a startup delay of exactly 0 the delay test is false for
    every clock value.  The tick then never stops at the startup gate:
    it ends after the estimation stage only when the safety switch is
    disarmed and runs the mode dispatch otherwise, from the first tick
    on.  In INITIALISING, a call of [update_initialising] with the
    attitude pitch inside the (40, 50) degree band switches to AUTO at
    once, whatever [delay_timer] holds, and so does a tick that is not
    stopped by the safety switch; a call or a tick with the pitch outside
    the band leaves the mode as it was.  So a run of calls of
    [update_initialising] ends in AUTO exactly when one of its readings
    was inside the band, and a run of ticks from INITIALISING stays in
    INITIALISING as long as the pitch is outside the band and is in AUTO
    after the first tick that finds it inside, unless the safety switch
    stops that tick. *)
Theorem C10_zero_startup_delay (hal : HAL) (t : Tracker) :
  F32.is_zero (startup_delay (g t)) = true ->
  (forall now since, delay_pending (g t) now since = false) /\
  update_tracking hal t =
    (if is_SAFETY_DISARMED (safety_switch_state hal)
     then estimation_stage hal t
     else mode_dispatch hal (estimation_stage hal t)) /\
  (in_settle_band hal = true ->
     control_mode (update_initialising hal t) = AUTO) /\
  (in_settle_band hal = true ->
   control_mode t = INITIALISING ->
   is_SAFETY_DISARMED (safety_switch_state hal) = false ->
     control_mode (update_tracking hal t) = AUTO) /\
  (in_settle_band hal = false ->
     control_mode (update_initialising hal t) = control_mode t) /\
  (in_settle_band hal = false ->
   control_mode t = INITIALISING ->
     control_mode (update_tracking hal t) = INITIALISING) /\
  (forall hs : list HAL,
     control_mode (run_initialising hs t) =
       if existsb in_settle_band hs then AUTO else control_mode t) /\
  (forall (before : list HAL) (first : HAL),
     control_mode t = INITIALISING ->
     Forall (fun h => in_settle_band h = false) before ->
     in_settle_band first = true ->
     control_mode (run_tracking before t) = INITIALISING /\
     control_mode (run_tracking (before ++ [first]) t) =
       if is_SAFETY_DISARMED (safety_switch_state first)
       then INITIALISING
       else AUTO).
Proof.
  intros Hz.
  assert (Hp : forall now since, delay_pending (g t) now since = false)
    by (intros; apply delay_pending_zero, Hz).
  pose proof (estimation_stage_frame hal t) as F.
  cbv zeta in F. destruct F as (Fm & Fg & _).
  assert (Hi : forall u, g u = g t -> in_settle_band hal = true ->
                         control_mode (update_initialising hal u) = AUTO).
  { intros u Hu Hb.
    pose proof (update_initialising_mode_timer hal u) as H.
    cbv zeta in H. destruct H as (_ & _ & Hc).
    rewrite Hc, Hb, Hu, Hp. reflexivity. }
  assert (Ht : update_tracking hal t =
               if is_SAFETY_DISARMED (safety_switch_state hal)
               then estimation_stage hal t
               else mode_dispatch hal (estimation_stage hal t)).
  { unfold update_tracking. cbv zeta. rewrite Fg, Hp. reflexivity. }
  split; [exact Hp|]. split; [exact Ht|].
  split; [apply Hi; reflexivity|].
  split.
  { intros Hb Hm Hs. rewrite Ht, Hs.
    unfold mode_dispatch. rewrite Fm, Hm. apply Hi; assumption. }
  split.
  { intros Hb.
    pose proof (update_initialising_mode_timer hal t) as H.
    cbv zeta in H. destruct H as (_ & _ & Hc).
    rewrite Hc, Hb. reflexivity. }
  split.
  { intros Hb Hm.
    destruct (zero_delay_tick_in_initialising hal t Hz Hm) as (_ & Tm).
    rewrite Tm, Hb. reflexivity. }
  split.
  { intros hs. apply run_initialising_zero_delay, Hz. }
  intros before first Hm Hout Hb.
  destruct (run_tracking_out_of_band_zero_delay before t Hz Hm Hout)
    as (Rg & Rm).
  split; [exact Rm|].
  rewrite run_tracking_app.
  destruct (zero_delay_tick_in_initialising first (run_tracking before t))
    as (_ & Tm); [rewrite Rg; exact Hz|exact Rm|].
  rewrite Tm, Hb. simpl.
  destruct (is_SAFETY_DISARMED (safety_switch_state first)); reflexivity.
Qed.

End ModeOrchestrator.

(** ** Runs on the test bench *)

Section BenchRuns.
Import Bench.
Local Existing Instance bench.

(** C1 on the bench: a vehicle last heard of at time 0, heading east at
    10 m/s.  At 2 s the estimate is the last-known location advanced by
    20 and the flag is set; at 6 s the flag is cleared, though it was
    set, and the stale estimate stays; at 0 s the estimate is the
    last-known location. *)
Lemma C1_vehicle_pos_estimate_witness :
  (F32.ltb (elapsed_sec (at_ms 2000) (tracker_east false AUTO p0))
           TRACKING_TIMEOUT_SEC = true /\
   location_estimate
     (vehicle (update_vehicle_pos_estimate
                 (at_ms 2000) (tracker_east false AUTO p0))) =
     bench_location_update zurich (F32.of_Z 90)
       (F32.mul (F32.of_Z 10) (F32.of_Z 2)) /\
   location_valid
     (vehicle (update_vehicle_pos_estimate
                 (at_ms 2000) (tracker_east false AUTO p0))) = true) /\
  (F32.leb TRACKING_TIMEOUT_SEC
           (elapsed_sec (at_ms 6000) (tracker_east true AUTO p0)) = true /\
   location_valid
     (vehicle (update_vehicle_pos_estimate
                 (at_ms 6000) (tracker_east true AUTO p0))) = false /\
   location_estimate
     (vehicle (update_vehicle_pos_estimate
                 (at_ms 6000) (tracker_east true AUTO p0))) = origin) /\
  (u32 (micros (at_ms 0) - 0) = 0 /\
   F32.is_finite (F32.of_Z 10) = true /\
   elapsed_sec (at_ms 0) (tracker_east false AUTO p0) = F32.zero /\
   location_estimate
     (vehicle (update_vehicle_pos_estimate
                 (at_ms 0) (tracker_east false AUTO p0))) = zurich /\
   location_valid
     (vehicle (update_vehicle_pos_estimate
                 (at_ms 0) (tracker_east false AUTO p0))) = true).
Proof.
  destruct (C1_vehicle_pos_estimate (at_ms 2000)
              (tracker_east false AUTO p0)) as (_ & _ & Hlt & _ & _).
  destruct (C1_vehicle_pos_estimate (at_ms 6000)
              (tracker_east true AUTO p0)) as (_ & _ & _ & Hge & _).
  destruct (C1_vehicle_pos_estimate (at_ms 0)
              (tracker_east false AUTO p0)) as (_ & _ & _ & _ & Hz).
  split; [|split].
  - split; [reflexivity|]. exact (Hlt eq_refl).
  - split; [reflexivity|]. exact (Hge eq_refl).
  - split; [reflexivity|]. split; [reflexivity|].
    apply (Hz eq_refl eq_refl).
    intros z E. unfold location_update; simpl.
    unfold bench_location_update. rewrite E. reflexivity.
Defined.

(** The timeout falls between 4 999 999 and 5 000 000 microseconds, and
    the microsecond difference is taken modulo [2^32]. *)
Example elapsed_sec_boundary :
  F32.ltb (elapsed_sec (mkHAL 4999999 0 NO_FIX origin F32.zero
                              SAFETY_ARMED F32.zero (fun _ _ => F32.zero))
                       (tracker_east false AUTO p0))
          TRACKING_TIMEOUT_SEC = true /\
  F32.ltb (elapsed_sec (mkHAL 5000000 0 NO_FIX origin F32.zero
                              SAFETY_ARMED F32.zero (fun _ _ => F32.zero))
                       (tracker_east false AUTO p0))
          TRACKING_TIMEOUT_SEC = false.
Proof. split; vm_compute; reflexivity. Qed.

(** The clock difference is taken modulo [2^32]: an update stamped one
    second before the microsecond clock wraps and a tick one second after
    the wrap are two seconds apart. *)
Example elapsed_sec_across_wrap :
  elapsed_sec (at_ms 1000)
    (mkTracker (mkVehicle false zurich origin (2 ^ 32 - 1000000) 0
                          F32.zero F32.zero)
               nav0 origin origin AUTO p0 0 0 []) = F32.of_Z 2.
Proof. vm_compute; reflexivity. Qed.

(** C2 as stated fails: with a startup delay of 2 s, the pitch is in the
    band at 1.000 s, outside it on every tick from 1.020 s to 2.980 s and
    in it again at 3.000 s.  Leaving the band does not reset
    [delay_timer], which still holds 1000 after the last tick outside the
    band, and the call at 3.000 s switches to AUTO although the pitch has
    only just re-entered the band. *)
Lemma C2_timer_not_reset_counterexample :
  in_settle_band (pitch_at 1000 QUARTER_PI) = true /\
  forallb (fun h => negb (in_settle_band h)) level_ticks = true /\
  in_settle_band (pitch_at 3000 QUARTER_PI) = true /\
  delay_timer
    (run_initialising (pitch_at 1000 QUARTER_PI :: level_ticks)
                      (tracker0 INITIALISING (params 2 0))) = 1000 /\
  control_mode
    (run_initialising (pitch_at 1000 QUARTER_PI :: level_ticks)
                      (tracker0 INITIALISING (params 2 0))) = INITIALISING /\
  control_mode
    (run_initialising interrupted_settle
                      (tracker0 INITIALISING (params 2 0))) = AUTO.
Proof. repeat split; vm_compute; reflexivity. Qed.

(** C2 (as amended) on the bench: the first in-band call at 1.000 s
    latches the timer and stays in INITIALISING, since the 2 s delay is
    pending. *)
Lemma C2_initialising_settle_witness :
  control_mode (tracker0 INITIALISING (params 2 0)) = INITIALISING /\
  delay_timer (update_initialising (pitch_at 1000 QUARTER_PI)
                 (tracker0 INITIALISING (params 2 0))) = 1000 /\
  control_mode (update_initialising (pitch_at 1000 QUARTER_PI)
                  (tracker0 INITIALISING (params 2 0))) <> AUTO.
Proof.
  split; [reflexivity|].
  destruct (C2_initialising_settle (pitch_at 1000 QUARTER_PI)
              (tracker0 INITIALISING (params 2 0)) eq_refl)
    as (Ht & Hiff & _ & _).
  split; [exact Ht|].
  intros Hauto. apply Hiff in Hauto. destruct Hauto as [_ Hp].
  vm_compute in Hp. discriminate Hp.
Defined.

(** C3 as stated fails: the first fix after bootstrap, at Zurich, leaves
    a current and previous location that differ from the raw fix on all
    three axes, because the blend runs on the first fix too. *)
Lemma C3_first_fix_blended_counterexample :
  fix_adequate (fix_at zurich) = true /\
  is_zero_sentinel (old_loc (tracker0 INITIALISING p0)) = true /\
  gps_location (fix_at zurich) = mkLocation 473977421 85455939 48813 /\
  current_loc (update_tracker_position (fix_at zurich)
                 (tracker0 INITIALISING p0)) =
    mkLocation 473977408 85455936 48812 /\
  old_loc (update_tracker_position (fix_at zurich)
             (tracker0 INITIALISING p0)) =
    mkLocation 473977408 85455936 48812 /\
  current_loc (update_tracker_position (fix_at zurich)
                 (tracker0 INITIALISING p0)) <>
    gps_location (fix_at zurich).
Proof.
  repeat split; try (vm_compute; reflexivity).
  vm_compute. discriminate.
Qed.

(** Small coordinates are affected as well: a first fix at 13 on every
    axis is stored as 12. *)
Example first_fix_small_coordinates :
  current_loc (update_tracker_position (fix_at (mkLocation 13 13 13))
                 (tracker0 INITIALISING p0)) = mkLocation 12 12 12.
Proof. vm_compute; reflexivity. Qed.

(** C3 (as amended) on the bench: a second fix at Zurich, blended with
    the location the first fix left. *)
Lemma C3_tracker_position_filter_witness :
  fix_adequate (fix_at zurich) = true /\
  old_loc (update_tracker_position (fix_at zurich)
             (tracker_at smoothed_zurich)) =
    current_loc (update_tracker_position (fix_at zurich)
                   (tracker_at smoothed_zurich)) /\
  current_loc (update_tracker_position (fix_at zurich)
                 (tracker_at smoothed_zurich)) =
    ema_location smoothed_zurich zurich.
Proof.
  split; [reflexivity|].
  destruct (C3_tracker_position_filter (fix_at zurich)
              (tracker_at smoothed_zurich) eq_refl) as (Hboth & Hnext & _).
  split; [exact Hboth|exact (Hnext eq_refl)].
Defined.

(** C4 as stated fails: in GPS-altitude mode, a tick at 1 s in STOP with
    a valid vehicle position 100 m above the tracker leaves the altitude
    difference at 0 instead of setting it to 100. *)
Lemma C4_tick_counterexample :
  alt_source (g (tracker_below STOP)) = 1 /\
  location_valid
    (vehicle (update_tracking (at_ms 1000) (tracker_below STOP))) = true /\
  alt (location
         (vehicle (update_tracking (at_ms 1000) (tracker_below STOP))))
    = 10000 /\
  alt (current_loc (update_tracking (at_ms 1000) (tracker_below STOP)))
    = 0 /\
  altitude_difference
    (nav_status (update_tracking (at_ms 1000) (tracker_below STOP)))
    = F32.zero /\
  altitude_difference
    (nav_status (update_tracking (at_ms 1000) (tracker_below STOP)))
    <> gps_alt_difference 10000 0.
Proof.
  repeat split; try (vm_compute; reflexivity).
  vm_compute. discriminate.
Qed.

(** C5 on the bench: an invalid vehicle position, and SERVO_TEST with a
    valid one. *)
Lemma C5_calculator_gate_witness :
  (location_valid (vehicle (tracker_east false AUTO p0)) = false /\
   update_bearing_and_distance (tracker_east false AUTO p0) =
     tracker_east false AUTO p0) /\
  (control_mode (tracker_east true SERVO_TEST p0) = SERVO_TEST /\
   nav_status (update_bearing_and_distance
                 (tracker_east true SERVO_TEST p0)) =
     nav_status (tracker_east true SERVO_TEST p0)).
Proof.
  split; (split; [reflexivity|]).
  - exact (proj1 (C5_calculator_gate (tracker_east false AUTO p0)
                    (or_introl eq_refl))).
  - exact (proj2 (C5_calculator_gate (tracker_east true SERVO_TEST p0)
                    (or_intror eq_refl))).
Defined.

(** C6 on the bench: in AUTO with a valid vehicle position and no
    override, the three commands are recomputed. *)
Lemma C6_bearing_distance_pitch_witness :
  location_valid (vehicle (tracker_east true AUTO p0)) = true /\
  control_mode (tracker_east true AUTO p0) <> SERVO_TEST /\
  distance (nav_status (update_bearing_and_distance
                          (tracker_east true AUTO p0))) =
    bench_get_distance origin origin /\
  bearing (nav_status (update_bearing_and_distance
                         (tracker_east true AUTO p0))) =
    F32.mul (F32.of_Z (bench_get_bearing_cd origin origin)) F32.lit_0_01 /\
  pitch (nav_status (update_bearing_and_distance
                       (tracker_east true AUTO p0))) =
    bench_degrees (bench_atan2f F32.zero (bench_get_distance origin origin)).
Proof.
  split; [reflexivity|]. split; [discriminate|].
  destruct (C6_bearing_distance_pitch (tracker_east true AUTO p0)
              eq_refl ltac:(discriminate))
    as (Hd & _ & Hb & _ & Hp).
  split; [exact Hd|].
  split; [apply Hb; [discriminate|reflexivity]
         |apply Hp; [discriminate|reflexivity]].
Defined.

(** C7 on the bench: a calibration is pending and the altitude
    difference is 12.0; the sample is NaN and is dropped, the offset
    becomes -12.0, the difference 0 and the flag is cleared. *)
Lemma C7_pressure_fusion_witness :
  alt_source (g (tracker_alt (F32.of_Z 12) (F32.of_Z 3) true)) = 0 /\
  need_altitude_calibration
    (nav_status (tracker_alt (F32.of_Z 12) (F32.of_Z 3) true)) = true /\
  altitude_offset
    (nav_status (tracking_update_pressure (baro_at SpecFloat.S754_nan)
                   pressure_msg
                   (tracker_alt (F32.of_Z 12) (F32.of_Z 3) true)))
    = F32.opp (F32.of_Z 12) /\
  altitude_difference
    (nav_status (tracking_update_pressure (baro_at SpecFloat.S754_nan)
                   pressure_msg
                   (tracker_alt (F32.of_Z 12) (F32.of_Z 3) true)))
    = F32.zero /\
  need_altitude_calibration
    (nav_status (tracking_update_pressure (baro_at SpecFloat.S754_nan)
                   pressure_msg
                   (tracker_alt (F32.of_Z 12) (F32.of_Z 3) true)))
    = false.
Proof.
  split; [reflexivity|]. split; [reflexivity|].
  destruct (C7_pressure_fusion (baro_at SpecFloat.S754_nan) pressure_msg
              (tracker_alt (F32.of_Z 12) (F32.of_Z 3) true) eq_refl)
    as (_ & _ & Hcal & _).
  exact (Hcal eq_refl eq_refl).
Defined.

(** A numeric sample without a pending calibration: 7 plus the offset 5
    replaces the previous difference. *)
Example pressure_sample_fused :
  altitude_difference
    (nav_status (tracking_update_pressure (baro_at (F32.of_Z 7))
                   pressure_msg
                   (tracker_alt (F32.of_Z 1) (F32.of_Z 5) false)))
    = F32.of_Z 12.
Proof. vm_compute; reflexivity. Qed.

(** C8 on the bench: x = 0x7FFF and y = 100. *)
Lemma C8_manual_control_flags_witness :
  msg_x manual_msg = 0x7FFF /\ msg_y manual_msg = 100 /\
  manual_control_yaw
    (nav_status (tracking_manual_control manual_msg
                   (tracker_east true AUTO p0))) = false /\
  manual_control_pitch
    (nav_status (tracking_manual_control manual_msg
                   (tracker_east true AUTO p0))) = true /\
  distance
    (nav_status (tracking_manual_control manual_msg
                   (tracker_east true AUTO p0))) = F32.zero.
Proof.
  split; [reflexivity|]. split; [reflexivity|].
  destruct (C8_manual_control_flags manual_msg (tracker_east true AUTO p0))
    as (_ & _ & _ & H).
  exact (H eq_refl eq_refl).
Defined.

(** C9 on the bench: the unused yaw axis stores 32767 in the bearing,
    and the next calculator tick in AUTO replaces it. *)
Lemma C9_manual_control_overwrites_witness :
  msg_x manual_msg = 0x7FFF /\
  bearing
    (nav_status (tracking_manual_control manual_msg
                   (tracker_east true AUTO p0))) = F32.of_Z 32767 /\
  manual_control_yaw
    (nav_status (tracking_manual_control manual_msg
                   (tracker_east true AUTO p0))) = false /\
  bearing
    (nav_status
       (update_bearing_and_distance
          (tracking_manual_control manual_msg
             (tracker_east true AUTO p0)))) =
    F32.mul (F32.of_Z (bench_get_bearing_cd origin origin)) F32.lit_0_01.
Proof.
  split; [reflexivity|].
  destruct (C9_manual_control_overwrites manual_msg
              (tracker_east true AUTO p0)) as (_ & _ & H & _).
  exact (H eq_refl).
Defined.

(** C10 on the bench: with a startup delay of 0, the first tick in
    INITIALISING with the pitch at 45 degrees ends in AUTO, a tick with
    a level antenna stays in INITIALISING, and after ninety-nine level
    ticks the first tick at 45 degrees ends in AUTO. *)
Lemma C10_zero_startup_delay_witness :
  F32.is_zero (startup_delay (g (tracker0 INITIALISING p0))) = true /\
  in_settle_band (pitch_at 20 QUARTER_PI) = true /\
  control_mode (update_initialising (pitch_at 20 QUARTER_PI)
                  (tracker0 INITIALISING p0)) = AUTO /\
  control_mode (update_tracking (pitch_at 20 QUARTER_PI)
                  (tracker0 INITIALISING p0)) = AUTO /\
  in_settle_band (at_ms 20) = false /\
  control_mode (update_tracking (at_ms 20) (tracker0 INITIALISING p0))
    = INITIALISING /\
  control_mode (run_tracking level_ticks (tracker0 INITIALISING p0))
    = INITIALISING /\
  control_mode
    (run_tracking (level_ticks ++ [pitch_at 3000 QUARTER_PI])
                  (tracker0 INITIALISING p0)) = AUTO.
Proof.
  split; [reflexivity|]. split; [reflexivity|].
  destruct (C10_zero_startup_delay (pitch_at 20 QUARTER_PI)
              (tracker0 INITIALISING p0) eq_refl)
    as (_ & _ & Hi & Ht & _ & _ & _ & Hr).
  split; [exact (Hi eq_refl)|].
  split; [exact (Ht eq_refl eq_refl eq_refl)|].
  split; [reflexivity|].
  destruct (C10_zero_startup_delay (at_ms 20)
              (tracker0 INITIALISING p0) eq_refl)
    as (_ & _ & _ & _ & _ & Ho & _).
  split; [exact (Ho eq_refl eq_refl)|].
  assert (L : Forall (fun h => in_settle_band h = false) level_ticks).
  { apply Forall_forall. intros h Hh.
    apply in_map_iff in Hh. destruct Hh as (k & <- & _). reflexivity. }
  destruct (Hr level_ticks (pitch_at 3000 QUARTER_PI) eq_refl L eq_refl)
    as (R1 & R2).
  split; [exact R1|exact R2].
Defined.

End BenchRuns.

(** ** How the estimator, the telemetry handler and the calculator compose *)

Section EstimatorComposition.
Context {C : Collaborators}.

(** The validity flag after a tick, on the microsecond clock. *)
Lemma location_valid_after_tick (hal : HAL) (t : Tracker) :
  location_valid (vehicle (update_vehicle_pos_estimate hal t)) =
    (u32 (micros hal - last_update_us (vehicle t)) <? 5000000).
Proof.
  rewrite <- elapsed_sec_threshold. unfold update_vehicle_pos_estimate.
  fold (elapsed_sec hal t).
  destruct (F32.ltb (elapsed_sec hal t) TRACKING_TIMEOUT_SEC); reflexivity.
Qed.

(** X1.  Before any position message has arrived both stamps are 0.  During
    the first five seconds of the clock a tick nevertheless declares the
    vehicle position valid, extrapolating from whatever [location] holds,
    while [update_armed_disarmed], which tests for a zero stamp, reports
    not armed. *)
Theorem valid_before_first_message (hal : HAL) (t : Tracker) :
  last_update_us (vehicle t) = 0 ->
  last_update_ms (vehicle t) = 0 ->
  0 <= micros hal < 5000000 ->
  let t' := update_vehicle_pos_estimate hal t in
  location_valid (vehicle t') = true /\
  location_estimate (vehicle t') =
    location_update (location (vehicle t)) (heading (vehicle t))
                    (F32.mul (ground_speed (vehicle t)) (elapsed_sec hal t)) /\
  update_armed_disarmed hal t' = false.
Proof.
  intros Hus Hms Hclk. cbv zeta.
  assert (Hu : u32 (micros hal - last_update_us (vehicle t)) < 5000000).
  { rewrite Hus, Z.sub_0_r. unfold u32.
    rewrite Z.mod_small; [lia|]. change (2 ^ 32) with 4294967296. lia. }
  pose proof (elapsed_sec_threshold hal t) as Hth.
  apply Z.ltb_lt in Hu. rewrite Hu in Hth.
  unfold update_armed_disarmed, update_vehicle_pos_estimate.
  fold (elapsed_sec hal t). rewrite Hth. simpl.
  rewrite Hms. repeat split.
Qed.

(** X2.  Extrapolation does not accumulate.  A tick inside the timeout
    recomputes the estimate from the last-known location, so the result
    does not depend on the ticks before it; a tick at or beyond the
    timeout keeps the estimate the previous tick left and clears the
    flag. *)
Theorem estimate_not_accumulated (h1 h2 : HAL) (t : Tracker) :
  (u32 (micros h2 - last_update_us (vehicle t)) < 5000000 ->
     update_vehicle_pos_estimate h2 (update_vehicle_pos_estimate h1 t) =
       update_vehicle_pos_estimate h2 t) /\
  (5000000 <= u32 (micros h2 - last_update_us (vehicle t)) ->
     update_vehicle_pos_estimate h2 (update_vehicle_pos_estimate h1 t) =
       set_vehicle t
         (set_location_valid
            (vehicle (update_vehicle_pos_estimate h1 t)) false)).
Proof.
  pose proof (update_vehicle_pos_estimate_frame h1 t) as F.
  cbv zeta in F.
  destruct F as (Fn & Fc & Fo & Fm & Fg & Fs & Fd & Fso & Fl & Fh & Fgs
                 & Fus & Fms).
  assert (Hdt : elapsed_sec h2 (update_vehicle_pos_estimate h1 t) =
                elapsed_sec h2 t)
    by (unfold elapsed_sec; rewrite Fus; reflexivity).
  pose proof (elapsed_sec_threshold h2 t) as Hth.
  split; intros Hu.
  - apply Z.ltb_lt in Hu. rewrite Hu in Hth.
    unfold update_vehicle_pos_estimate at 1 3.
    fold (elapsed_sec h2 (update_vehicle_pos_estimate h1 t)).
    fold (elapsed_sec h2 t). rewrite Hdt, Hth, Fl, Fh, Fgs.
    unfold set_vehicle, set_location_valid, set_location_estimate.
    simpl. rewrite Fn, Fc, Fo, Fm, Fg, Fs, Fd, Fso, Fl, Fh, Fgs, Fus, Fms.
    reflexivity.
  - apply Z.ltb_ge in Hu. rewrite Hu in Hth.
    unfold update_vehicle_pos_estimate at 1.
    fold (elapsed_sec h2 (update_vehicle_pos_estimate h1 t)).
    rewrite Hdt, Hth.
    unfold set_vehicle. rewrite Fn, Fc, Fo, Fm, Fg, Fs, Fd, Fso.
    reflexivity.
Qed.

End EstimatorComposition.

Section TelemetryComposition.
Context {C : Collaborators}.

(** The GPS-altitude update writes [nav_status] only. *)
Lemma tracking_update_gps_alt_frame (t : Tracker) :
  vehicle (tracking_update_gps_alt t) = vehicle t /\
  current_loc (tracking_update_gps_alt t) = current_loc t /\
  old_loc (tracking_update_gps_alt t) = old_loc t.
Proof.
  unfold tracking_update_gps_alt.
  destruct (location_valid (vehicle t)); repeat split.
Qed.

(** The vehicle state a position message leaves. *)
Lemma vehicle_after_position_message
    (hal : HAL) (msg : mavlink_global_position_int_t) (t : Tracker) :
  vehicle (tracking_update_position hal msg t) =
    mkVehicle (location_valid (vehicle t))
              (mkLocation (msg_lat msg) (msg_lon msg)
                          (Z.quot (msg_alt msg) 10))
              (location_estimate (vehicle t))
              (micros hal) (millis hal)
              (F32.mul (F32.of_Z (msg_hdg msg)) F32.lit_0_01)
              (F32.mul (pythagorous2 (F32.of_Z (msg_vx msg))
                                     (F32.of_Z (msg_vy msg)))
                       F32.lit_0_01).
Proof.
  unfold tracking_update_position. cbv zeta.
  destruct (alt_source _ =? 1); [|reflexivity].
  destruct (tracking_update_gps_alt_frame
              (set_vehicle t
                 (mkVehicle (location_valid (vehicle t))
                    (mkLocation (msg_lat msg) (msg_lon msg)
                       (Z.quot (msg_alt msg) 10))
                    (location_estimate (vehicle t))
                    (micros hal) (millis hal)
                    (F32.mul (F32.of_Z (msg_hdg msg)) F32.lit_0_01)
                    (F32.mul (pythagorous2 (F32.of_Z (msg_vx msg))
                                           (F32.of_Z (msg_vy msg)))
                             F32.lit_0_01)))) as (H & _).
  exact H.
Qed.

(** X3.  A position message handled at clock [h1] followed by a tick at clock
    [h2]: the vehicle position is valid exactly when fewer than 5 000 000
    microseconds (modulo 2^32) separate the two, whatever the flag was
    before, and then the estimate is the message position advanced along
    the message heading by the message speed times the elapsed time. *)
Theorem tick_after_position_message
    (h1 h2 : HAL) (msg : mavlink_global_position_int_t) (t : Tracker) :
  let t1 := tracking_update_position h1 msg t in
  let v2 := vehicle (update_vehicle_pos_estimate h2 t1) in
  location_valid v2 = (u32 (micros h2 - micros h1) <? 5000000) /\
  location v2 =
    mkLocation (msg_lat msg) (msg_lon msg) (Z.quot (msg_alt msg) 10) /\
  (u32 (micros h2 - micros h1) < 5000000 ->
     location_estimate v2 =
       location_update
         (mkLocation (msg_lat msg) (msg_lon msg) (Z.quot (msg_alt msg) 10))
         (F32.mul (F32.of_Z (msg_hdg msg)) F32.lit_0_01)
         (F32.mul
            (F32.mul (pythagorous2 (F32.of_Z (msg_vx msg))
                                   (F32.of_Z (msg_vy msg)))
                     F32.lit_0_01)
            (F32.mul (F32.of_Z (u32 (micros h2 - micros h1)))
                     F32.lit_1e_6))).
Proof.
  cbv zeta.
  pose proof (vehicle_after_position_message h1 msg t) as Hv.
  pose proof (location_valid_after_tick h2
                (tracking_update_position h1 msg t)) as Hvalid.
  rewrite Hv in Hvalid. simpl in Hvalid.
  pose proof (update_vehicle_pos_estimate_frame h2
                (tracking_update_position h1 msg t)) as F.
  cbv zeta in F. destruct F as (_ & _ & _ & _ & _ & _ & _ & _ & Fl & _).
  split; [exact Hvalid|]. split; [rewrite Fl, Hv; reflexivity|].
  intros Hu. apply Z.ltb_lt in Hu.
  unfold update_vehicle_pos_estimate, TRACKING_TIMEOUT_SEC.
  rewrite Hv. cbn [last_update_us location heading ground_speed].
  rewrite (F32Facts.mul_1e_6_lt_5 _ (proj1 (u32_range _))), Hu.
  reflexivity.
Qed.

(** X4.  The "armed" notification after a position message handled at clock
    [h1], read at clock [h2]: it is on exactly when the message was not
    stamped at millisecond 0 and fewer than 5000 ms (modulo 2^32) have
    passed.  A message stamped at millisecond 0 is taken for "no message
    yet" and never arms. *)
Theorem armed_after_position_message
    (h1 h2 : HAL) (msg : mavlink_global_position_int_t) (t : Tracker) :
  (update_armed_disarmed h2 (tracking_update_position h1 msg t) = true <->
     millis h1 <> 0 /\ u32 (millis h2 - millis h1) < 5000) /\
  (millis h1 = 0 ->
     update_armed_disarmed h2 (tracking_update_position h1 msg t) = false).
Proof.
  unfold update_armed_disarmed.
  rewrite (vehicle_after_position_message h1 msg t). simpl.
  unfold TRACKING_TIMEOUT_MS. split.
  - rewrite andb_true_iff, negb_true_iff, Z.eqb_neq, Z.ltb_lt. tauto.
  - intros ->. reflexivity.
Qed.

(** The position filter does not look at the vehicle state. *)
Lemma update_tracker_position_locs (hal : HAL) (t : Tracker) (v : Vehicle) :
  current_loc (update_tracker_position hal (set_vehicle t v)) =
    current_loc (update_tracker_position hal t) /\
  old_loc (update_tracker_position hal (set_vehicle t v)) =
    old_loc (update_tracker_position hal t).
Proof.
  unfold update_tracker_position. simpl.
  destruct (_ <=? _); split; reflexivity.
Qed.

Lemma estimation_stage_locs (hal : HAL) (t : Tracker) :
  current_loc (estimation_stage hal t) =
    current_loc (update_tracker_position hal t) /\
  old_loc (estimation_stage hal t) = old_loc (update_tracker_position hal t).
Proof.
  unfold estimation_stage.
  pose proof (update_bearing_and_distance_frame
                (update_tracker_position hal
                   (update_vehicle_pos_estimate hal t))) as K.
  cbv zeta in K. destruct K as (_ & K1 & K2 & _).
  rewrite K1, K2.
  unfold update_vehicle_pos_estimate.
  destruct (F32.ltb _ TRACKING_TIMEOUT_SEC);
    apply update_tracker_position_locs.
Qed.

(** X5.  A lost vehicle freezes the navigation command.  When 5 000 000
    microseconds or more have passed since the last position message, the
    estimation calls of a tick clear the validity flag and leave every
    field of [nav_status] as it was, in any mode; the tracker position is
    still filtered. *)
Theorem lost_vehicle_freezes_nav (hal : HAL) (t : Tracker) :
  5000000 <= u32 (micros hal - last_update_us (vehicle t)) ->
  nav_status (estimation_stage hal t) = nav_status t /\
  location_valid (vehicle (estimation_stage hal t)) = false /\
  current_loc (estimation_stage hal t) =
    current_loc (update_tracker_position hal t).
Proof.
  intros Hu.
  pose proof (location_valid_after_tick hal t) as Hvalid.
  apply Z.ltb_ge in Hu. rewrite Hu in Hvalid.
  pose proof (update_tracker_position_frame hal
                (update_vehicle_pos_estimate hal t)) as P.
  cbv zeta in P. destruct P as (Pv & Pn & _).
  pose proof (update_vehicle_pos_estimate_frame hal t) as V.
  cbv zeta in V. destruct V as (Vn & _).
  assert (E : estimation_stage hal t =
              update_tracker_position hal
                (update_vehicle_pos_estimate hal t)).
  { unfold estimation_stage, update_bearing_and_distance.
    rewrite Pv, Hvalid. reflexivity. }
  split; [rewrite E, Pn, Vn; reflexivity|].
  split; [rewrite E, Pv; exact Hvalid|].
  apply estimation_stage_locs.
Qed.

(** X6.  The calculator works on this tick's inputs.  Inside the timeout and
    outside SERVO_TEST, the distance a tick leaves is measured from the
    tracker position as filtered on this tick to the vehicle estimate as
    extrapolated on this tick. *)
Theorem calculator_uses_fresh_inputs (hal : HAL) (t : Tracker) :
  u32 (micros hal - last_update_us (vehicle t)) < 5000000 ->
  control_mode t <> SERVO_TEST ->
  distance (nav_status (estimation_stage hal t)) =
    get_distance
      (current_loc (update_tracker_position hal t))
      (location_update (location (vehicle t)) (heading (vehicle t))
         (F32.mul (ground_speed (vehicle t)) (elapsed_sec hal t))).
Proof.
  intros Hu Hm.
  pose proof (elapsed_sec_threshold hal t) as Hth.
  apply Z.ltb_lt in Hu. rewrite Hu in Hth.
  pose proof (update_tracker_position_locs hal t) as L.
  unfold estimation_stage, update_vehicle_pos_estimate.
  fold (elapsed_sec hal t). rewrite Hth.
  set (v1 := set_location_valid _ true).
  pose proof (update_tracker_position_frame hal (set_vehicle t v1)) as P.
  cbv zeta in P. destruct P as (Pv & Pn & Pm & _).
  destruct (L v1) as (L1 & _).
  unfold update_bearing_and_distance.
  rewrite Pv, Pm. simpl.
  apply ControlMode_eqb_neq in Hm. rewrite Hm. simpl.
  rewrite L1.
  destruct (negb (ControlMode_eqb (control_mode t) SCAN)); simpl;
    [destruct (manual_control_yaw _); simpl|];
    try (destruct (manual_control_pitch _); reflexivity);
    reflexivity.
Qed.

End TelemetryComposition.

(** ** What a tick asks of the servo layer *)

Section TickStructure.
Context {C : Collaborators}.

(** X7.  A tick withheld by the startup delay or by the safety switch ends
    after the estimation calls: it issues no servo command, runs no mode
    strategy and leaves the mode and the settle timer as they were. *)
Theorem withheld_tick_issues_nothing (hal : HAL) (t : Tracker) :
  delay_pending (g t) (millis hal) (start_time_ms t) = true \/
  safety_switch_state hal = SAFETY_DISARMED ->
  update_tracking hal t = estimation_stage hal t /\
  servo_out (update_tracking hal t) = servo_out t /\
  control_mode (update_tracking hal t) = control_mode t /\
  delay_timer (update_tracking hal t) = delay_timer t.
Proof.
  intros H.
  pose proof (estimation_stage_frame hal t) as F.
  cbv zeta in F. destruct F as (Fm & Fg & Fs & Fd & Fso).
  assert (E : update_tracking hal t = estimation_stage hal t).
  { unfold update_tracking. cbv zeta. rewrite Fg, Fs.
    destruct H as [-> | ->]; [reflexivity|].
    destruct (delay_pending _ _ _); reflexivity. }
  rewrite E. repeat split; assumption.
Qed.

(** What [update_initialising] does before it may call [set_mode]: the
    navigation pitch is set to 45 and nothing else of [nav_status] is
    written; yaw output off, pitch output on, then the pitch servo at 45
    degrees plus the trim, constrained to [-90, 90]; the settle timer is
    latched if due; everything else is kept.  The call returns that
    state, or hands it to [set_mode] when the pitch is inside the band
    and the wait is over.  Nothing is assumed of [set_mode]. *)
Lemma update_initialising_shape (hal : HAL) (t : Tracker) :
  exists t5 : Tracker,
    update_initialising hal t =
      (if in_settle_band hal
          && negb (delay_pending (g t) (millis hal)
                                 (settle_timer_after hal t))
       then set_mode AUTO t5
       else t5) /\
    nav_status t5 = set_pitch (nav_status t) (F32.of_Z 45) /\
    servo_out t5 =
      servo_out t ++
        [YawDisableOut; PitchEnableOut;
         UpdatePitchServo
           (constrain_float (F32.add (F32.of_Z 45) (pitch_trim (g t)))
                            (F32.of_Z (-90)) (F32.of_Z 90))] /\
    control_mode t5 = control_mode t /\
    delay_timer t5 = settle_timer_after hal t /\
    g t5 = g t /\ vehicle t5 = vehicle t /\
    current_loc t5 = current_loc t /\ old_loc t5 = old_loc t /\
    start_time_ms t5 = start_time_ms t.
Proof.
  destruct t as [v n cur old mode prm st dtm so].
  unfold update_initialising, settle_timer_after. simpl.
  destruct (in_settle_band hal); simpl.
  - destruct (dtm =? 0); simpl;
      destruct (delay_pending prm (millis hal) _); simpl;
      eexists; (split; [reflexivity|]); simpl;
      rewrite <- !app_assoc; repeat split; reflexivity.
  - eexists; (split; [reflexivity|]); simpl.
    rewrite <- !app_assoc. repeat split; reflexivity.
Qed.

(** X8.  A tick in INITIALISING that is not withheld: whatever the calculator
    computed on this tick, the navigation pitch is set to 45 degrees;
    bearing and distance are the calculator's; exactly three servo
    commands are issued, none of which drives yaw; the mode is still
    INITIALISING.  That state is the result of the tick when the pitch is
    outside the band or the settle wait is pending; otherwise it is the
    state the tick hands to [set_mode] with AUTO.  What [set_mode] does
    with it is not part of the statement. *)
Theorem initialising_tick (hal : HAL) (t : Tracker) :
  control_mode t = INITIALISING ->
  delay_pending (g t) (millis hal) (start_time_ms t) = false ->
  safety_switch_state hal <> SAFETY_DISARMED ->
  exists t5 : Tracker,
    update_tracking hal t =
      (if in_settle_band hal
          && negb (delay_pending (g t) (millis hal)
                                 (settle_timer_after hal t))
       then set_mode AUTO t5
       else t5) /\
    pitch (nav_status t5) = F32.of_Z 45 /\
    bearing (nav_status t5) =
      bearing (nav_status (estimation_stage hal t)) /\
    distance (nav_status t5) =
      distance (nav_status (estimation_stage hal t)) /\
    servo_out t5 =
      servo_out t ++
        [YawDisableOut; PitchEnableOut;
         UpdatePitchServo
           (constrain_float (F32.add (F32.of_Z 45) (pitch_trim (g t)))
                            (F32.of_Z (-90)) (F32.of_Z 90))] /\
    control_mode t5 = INITIALISING /\
    delay_timer t5 = settle_timer_after hal t.
Proof.
  intros Hm Hp Hs.
  pose proof (estimation_stage_frame hal t) as F.
  cbv zeta in F. destruct F as (Fm & Fg & Fs & Fd & Fso).
  assert (E : update_tracking hal t =
              update_initialising hal (estimation_stage hal t)).
  { unfold update_tracking. cbv zeta. rewrite Fg, Fs, Hp.
    destruct (safety_switch_state hal); try reflexivity;
      try (unfold mode_dispatch; rewrite Fm, Hm; reflexivity).
    contradiction Hs; reflexivity. }
  assert (T : settle_timer_after hal (estimation_stage hal t) =
              settle_timer_after hal t)
    by (unfold settle_timer_after; rewrite Fd; reflexivity).
  destruct (update_initialising_shape hal (estimation_stage hal t))
    as (t5 & Eq & Hn & Hso & Hc & Hd & _).
  exists t5. rewrite E, Eq, Hn, Hso, Hc, Hd, Fg, Fso, Fm, T.
  repeat split. exact Hm.
Qed.

(** X9.  A tick in STOP that is not withheld asks the servo layer to disarm,
    once, and changes nothing else of what the estimation calls left. *)
Theorem stop_tick (hal : HAL) (t : Tracker) :
  control_mode t = STOP ->
  delay_pending (g t) (millis hal) (start_time_ms t) = false ->
  safety_switch_state hal <> SAFETY_DISARMED ->
  let t' := update_tracking hal t in
  servo_out t' = servo_out t ++ [DisarmServos] /\
  nav_status t' = nav_status (estimation_stage hal t) /\
  vehicle t' = vehicle (estimation_stage hal t) /\
  current_loc t' = current_loc (estimation_stage hal t) /\
  control_mode t' = STOP /\
  delay_timer t' = delay_timer t.
Proof.
  intros Hm Hp Hs. cbv zeta.
  pose proof (estimation_stage_frame hal t) as F.
  cbv zeta in F. destruct F as (Fm & Fg & Fs & Fd & Fso).
  assert (E : update_tracking hal t =
              disarm_servos (estimation_stage hal t)).
  { unfold update_tracking. cbv zeta. rewrite Fg, Fs, Hp.
    destruct (safety_switch_state hal); try reflexivity;
      try (unfold mode_dispatch; rewrite Fm, Hm; reflexivity).
    contradiction Hs; reflexivity. }
  rewrite E. unfold disarm_servos, servo. simpl.
  rewrite Fso, Fm, Fd. repeat split. exact Hm.
Qed.

End TickStructure.

(** ** GPS altitude: the position message and the tick *)

Section GpsAltitude.
Context {C : Collaborators}.

(** C4 (as amended).  In GPS-altitude mode ([alt_source] 1) the altitude
    difference is written when a vehicle position message is handled,
    not by the tick: the message altitude (millimetres) is stored in
    centimetres, and if the validity flag left by the last tick is true
    the altitude difference becomes the stored vehicle altitude minus the
    tracker's current altitude, divided by 100 toward zero (whole
    metres); with the flag false it is left as it was.  No offset is
    added and the offset and the calibration flag are left as they
    were.  The code of the tick does not write the altitude difference:
    the estimation calls leave it as it was; a tick withheld by the
    startup delay or by the safety switch ends there; any other tick
    ends with what the mode asks for, applied to the tracker the
    estimation calls left, and each of these is defined outside
    tracking.cpp: the strategy of the mode in AUTO, MANUAL, SCAN and
    SERVO_TEST, [disarm_servos] in STOP and, in INITIALISING, nothing or
    [set_mode] with AUTO, on a tracker whose altitude difference is
    still the one the tick started with. *)
Theorem C4_gps_altitude_on_position_message
    (hal : HAL) (msg : mavlink_global_position_int_t) (t : Tracker) :
  alt_source (g t) = 1 ->
  let t' := tracking_update_position hal msg t in
  alt (location (vehicle t')) = Z.quot (msg_alt msg) 10 /\
  current_loc t' = current_loc t /\
  (location_valid (vehicle t) = true ->
     altitude_difference (nav_status t') =
       gps_alt_difference (alt (location (vehicle t')))
                          (alt (current_loc t'))) /\
  (location_valid (vehicle t) = false ->
     altitude_difference (nav_status t') =
       altitude_difference (nav_status t)) /\
  altitude_offset (nav_status t') = altitude_offset (nav_status t) /\
  need_altitude_calibration (nav_status t') =
    need_altitude_calibration (nav_status t) /\
  (forall tick : HAL,
     altitude_difference (nav_status (estimation_stage tick t)) =
       altitude_difference (nav_status t) /\
     (delay_pending (g t) (millis tick) (start_time_ms t) = true \/
      safety_switch_state tick = SAFETY_DISARMED ->
        update_tracking tick t = estimation_stage tick t /\
        altitude_difference (nav_status (update_tracking tick t)) =
          altitude_difference (nav_status t)) /\
     (delay_pending (g t) (millis tick) (start_time_ms t) = false ->
      safety_switch_state tick <> SAFETY_DISARMED ->
        match control_mode t with
        | AUTO =>
            update_tracking tick t =
              update_auto tick (estimation_stage tick t)
        | MANUAL =>
            update_tracking tick t =
              update_manual tick (estimation_stage tick t)
        | SCAN =>
            update_tracking tick t =
              update_scan tick (estimation_stage tick t)
        | SERVO_TEST =>
            update_tracking tick t =
              update_servo_test tick (estimation_stage tick t)
        | STOP =>
            update_tracking tick t =
              disarm_servos (estimation_stage tick t)
        | INITIALISING =>
            exists t5 : Tracker,
              altitude_difference (nav_status t5) =
                altitude_difference (nav_status t) /\
              update_tracking tick t =
                (if in_settle_band tick
                    && negb (delay_pending (g t) (millis tick)
                                           (settle_timer_after tick t))
                 then set_mode AUTO t5
                 else t5)
        end)).
Proof.
  intros Hsrc. cbv zeta.
  assert (M :
    alt (location (vehicle (tracking_update_position hal msg t))) =
      Z.quot (msg_alt msg) 10 /\
    current_loc (tracking_update_position hal msg t) = current_loc t /\
    (location_valid (vehicle t) = true ->
       altitude_difference
         (nav_status (tracking_update_position hal msg t)) =
         gps_alt_difference
           (alt (location (vehicle (tracking_update_position hal msg t))))
           (alt (current_loc (tracking_update_position hal msg t)))) /\
    (location_valid (vehicle t) = false ->
       altitude_difference
         (nav_status (tracking_update_position hal msg t)) =
         altitude_difference (nav_status t)) /\
    altitude_offset (nav_status (tracking_update_position hal msg t)) =
      altitude_offset (nav_status t) /\
    need_altitude_calibration
      (nav_status (tracking_update_position hal msg t)) =
      need_altitude_calibration (nav_status t)).
  { unfold tracking_update_position, tracking_update_gps_alt,
      gps_alt_difference.
    simpl. rewrite Hsrc. simpl.
    destruct (location_valid (vehicle t)); simpl;
      repeat split; intros; try reflexivity; discriminate. }
  destruct M as (M1 & M2 & M3 & M4 & M5 & M6).
  do 6 (split; [assumption|]).
  intros tick.
  destruct (estimation_stage_keeps_altitude tick t) as (Ka & _).
  pose proof (estimation_stage_frame tick t) as F.
  cbv zeta in F. destruct F as (Fm & Fg & Fs & Fd & Fso).
  split; [exact Ka|]. split.
  - intros H.
    assert (E : update_tracking tick t = estimation_stage tick t).
    { unfold update_tracking. cbv zeta. rewrite Fg, Fs.
      destruct H as [-> | ->]; [reflexivity|].
      destruct (delay_pending _ _ _); reflexivity. }
    split; [exact E|rewrite E; exact Ka].
  - intros Hp Hs.
    assert (E : update_tracking tick t =
                mode_dispatch tick (estimation_stage tick t)).
    { unfold update_tracking. cbv zeta. rewrite Fg, Fs, Hp.
      destruct (safety_switch_state tick); try reflexivity.
      contradiction Hs; reflexivity. }
    rewrite E. unfold mode_dispatch. rewrite Fm.
    destruct (control_mode t); try reflexivity.
    destruct (update_initialising_shape tick (estimation_stage tick t))
      as (t5 & Eq & Hn & _).
    exists t5. split.
    + rewrite Hn, <- Ka.
      destruct (nav_status (estimation_stage tick t)); reflexivity.
    + rewrite Eq, Fg. unfold settle_timer_after. rewrite Fd. reflexivity.
Qed.

End GpsAltitude.

(** ** Invariants over sequences of calls *)

Section EventInvariants.
Context {C : Collaborators}.

(** The navigation status the estimation calls leave is the calculator's,
    run on the navigation status they found. *)
Lemma estimation_stage_nav (hal : HAL) (t : Tracker) :
  exists t1,
    nav_status t1 = nav_status t /\
    estimation_stage hal t = update_bearing_and_distance t1.
Proof.
  exists (update_tracker_position hal (update_vehicle_pos_estimate hal t)).
  split; [|reflexivity].
  pose proof (update_tracker_position_frame hal
                (update_vehicle_pos_estimate hal t)) as P.
  cbv zeta in P. destruct P as (_ & P & _).
  pose proof (update_vehicle_pos_estimate_frame hal t) as V.
  cbv zeta in V. destruct V as (V & _).
  rewrite P, V. reflexivity.
Qed.

(** The calculator leaves an axis alone while its override is on. *)
Lemma update_bearing_and_distance_override (t : Tracker) :
  (manual_control_yaw (nav_status t) = true ->
     bearing (nav_status (update_bearing_and_distance t)) =
       bearing (nav_status t)) /\
  (manual_control_pitch (nav_status t) = true ->
     pitch (nav_status (update_bearing_and_distance t)) =
       pitch (nav_status t)).
Proof.
  destruct t as [v [b d p ad ao my mp nc] cur old mode prm st dtm so].
  unfold update_bearing_and_distance. simpl.
  destruct (_ || _); simpl; [split; reflexivity|].
  split; intros ->; rewrite ?andb_false_r; simpl;
    destruct (negb (ControlMode_eqb mode SCAN)); simpl;
    try destruct my; try destruct mp; reflexivity.
Qed.

(** No event changes the mode, the parameters, the timers or the servo
    commands issued so far. *)
Lemma handle_frame (e : Event) (t : Tracker) :
  control_mode (handle e t) = control_mode t /\
  g (handle e t) = g t /\
  start_time_ms (handle e t) = start_time_ms t /\
  delay_timer (handle e t) = delay_timer t /\
  servo_out (handle e t) = servo_out t.
Proof.
  destruct e as [hal|hal msg|hal msg|msg]; simpl.
  - apply estimation_stage_frame.
  - unfold tracking_update_position, tracking_update_gps_alt. simpl.
    destruct (alt_source (g t) =? 1); simpl; [|repeat split].
    destruct (location_valid (vehicle t)); repeat split.
  - unfold tracking_update_pressure.
    destruct (negb _); simpl; repeat split.
  - repeat split.
Qed.

(** What an event may do to the altitude fusion fields and the override
    flags. *)
Lemma handle_nav (e : Event) (t : Tracker) :
  let n := nav_status t in
  let n' := nav_status (handle e t) in
  (need_altitude_calibration n = false ->
     need_altitude_calibration n' = false /\
     altitude_offset n' = altitude_offset n) /\
  (alt_source (g t) <> 0 ->
     need_altitude_calibration n' = need_altitude_calibration n /\
     altitude_offset n' = altitude_offset n) /\
  (is_ManualMsg e = false ->
     manual_control_yaw n' = manual_control_yaw n /\
     manual_control_pitch n' = manual_control_pitch n /\
     (manual_control_yaw n = true -> bearing n' = bearing n) /\
     (manual_control_pitch n = true -> pitch n' = pitch n)).
Proof.
  cbv zeta. destruct e as [hal|hal msg|hal msg|msg]; simpl.
  - destruct (estimation_stage_nav hal t) as (t1 & Hn & ->).
    pose proof (update_bearing_and_distance_keeps t1) as K.
    cbv zeta in K. destruct K as (_ & K2 & K3 & K4 & K5).
    destruct (update_bearing_and_distance_override t1) as (O1 & O2).
    rewrite Hn in *. rewrite K2, K3, K4, K5.
    repeat split; auto.
  - unfold tracking_update_position, tracking_update_gps_alt. simpl.
    destruct (alt_source (g t) =? 1); simpl;
      [destruct (location_valid (vehicle t)); simpl|];
      repeat split; auto.
  - unfold tracking_update_pressure.
    destruct (alt_source (g t) =? 0) eqn:Es; simpl.
    + apply Z.eqb_eq in Es.
      destruct (negb (F32.is_nan _)); simpl;
        destruct (need_altitude_calibration (nav_status t)) eqn:En;
        simpl; repeat split; auto; try discriminate; try contradiction.
    + repeat split; auto.
  - repeat split; auto; discriminate.
Qed.

(** X10.  The calibration offset is changed by nothing but a calibration: from
    a state without a pending calibration request, the offset keeps its
    value and no request appears, through any sequence of ticks, position
    messages, pressure samples and manual-control samples. *)
Theorem offset_changes_only_by_calibration (es : list Event) :
  forall t,
    need_altitude_calibration (nav_status t) = false ->
    altitude_offset (nav_status (run es t)) =
      altitude_offset (nav_status t) /\
    need_altitude_calibration (nav_status (run es t)) = false.
Proof.
  induction es as [|e es IH]; intros t Hn; simpl.
  - split; [reflexivity|exact Hn].
  - pose proof (handle_nav e t) as H. cbv zeta in H.
    destruct H as (H & _). destruct (H Hn) as (H1 & H2).
    destruct (IH (handle e t) H1) as (I1 & I2).
    split; [rewrite I1; exact H2|exact I2].
Qed.

(** X11.  Outside barometric mode a calibration request is never served: with
    an altitude source other than 0, the pending flag and the offset keep
    their values through any sequence of events. *)
Theorem calibration_not_served_outside_baro_mode (es : list Event) :
  forall t,
    alt_source (g t) <> 0 ->
    need_altitude_calibration (nav_status (run es t)) =
      need_altitude_calibration (nav_status t) /\
    altitude_offset (nav_status (run es t)) =
      altitude_offset (nav_status t).
Proof.
  induction es as [|e es IH]; intros t Hs; simpl.
  - split; reflexivity.
  - pose proof (handle_nav e t) as H. cbv zeta in H.
    destruct H as (_ & H & _). destruct (H Hs) as (H1 & H2).
    destruct (handle_frame e t) as (_ & Fg & _).
    destruct (IH (handle e t)) as (I1 & I2); [rewrite Fg; exact Hs|].
    split; [rewrite I1; exact H1|rewrite I2; exact H2].
Qed.

(** X12.  A manual override is released only by another manual-control sample.
    Through any sequence of ticks, position messages and pressure samples
    the two override flags keep their values, and an axis whose override
    is on keeps its command. *)
Theorem manual_override_persists (es : list Event) :
  forall t,
    forallb (fun e => negb (is_ManualMsg e)) es = true ->
    manual_control_yaw (nav_status (run es t)) =
      manual_control_yaw (nav_status t) /\
    manual_control_pitch (nav_status (run es t)) =
      manual_control_pitch (nav_status t) /\
    (manual_control_yaw (nav_status t) = true ->
       bearing (nav_status (run es t)) = bearing (nav_status t)) /\
    (manual_control_pitch (nav_status t) = true ->
       pitch (nav_status (run es t)) = pitch (nav_status t)).
Proof.
  induction es as [|e es IH]; intros t Hes; simpl.
  - repeat split.
  - simpl in Hes. apply andb_true_iff in Hes. destruct Hes as [He Hes].
    apply negb_true_iff in He.
    pose proof (handle_nav e t) as H. cbv zeta in H.
    destruct H as (_ & _ & H). destruct (H He) as (Hy & Hp & Hb & Hpi).
    destruct (IH (handle e t) Hes) as (Iy & Ip & Ib & Ipi).
    rewrite Iy, Ip, Hy, Hp. split; [reflexivity|]. split; [reflexivity|].
    split; intros Hon.
    + rewrite Ib by (rewrite Hy; exact Hon). apply Hb, Hon.
    + rewrite Ipi by (rewrite Hp; exact Hon). apply Hpi, Hon.
Qed.

(** X13.  Only the mode dispatch of a tick commands servos or changes the mode:
    the estimation calls and the three message handlers, in any order and
    number, leave the mode, the parameters, both timers and the servo
    commands as they were. *)
Theorem events_leave_mode_and_servos (es : list Event) :
  forall t,
    control_mode (run es t) = control_mode t /\
    g (run es t) = g t /\
    start_time_ms (run es t) = start_time_ms t /\
    delay_timer (run es t) = delay_timer t /\
    servo_out (run es t) = servo_out t.
Proof.
  induction es as [|e es IH]; intros t; simpl.
  - repeat split.
  - destruct (handle_frame e t) as (H1 & H2 & H3 & H4 & H5).
    destruct (IH (handle e t)) as (I1 & I2 & I3 & I4 & I5).
    rewrite I1, I2, I3, I4, I5. repeat split; assumption.
Qed.

(** What an event does to the two tracker locations. *)
Lemma handle_locs (e : Event) (t : Tracker) :
  (has_adequate_fix e = false ->
     current_loc (handle e t) = current_loc t /\
     old_loc (handle e t) = old_loc t) /\
  (has_adequate_fix e = true ->
     old_loc (handle e t) = current_loc (handle e t)).
Proof.
  destruct e as [hal|hal msg|hal msg|msg]; simpl.
  - destruct (estimation_stage_locs hal t) as (L1 & L2).
    rewrite L1, L2. unfold update_tracker_position.
    change (GPS_Status_rank GPS_OK_FIX_2D) with 2.
    split; intros ->; split; reflexivity.
  - unfold tracking_update_position, tracking_update_gps_alt. simpl.
    split; [intros _|discriminate].
    destruct (alt_source (g t) =? 1); simpl; [|split; reflexivity].
    destruct (location_valid (vehicle t)); split; reflexivity.
  - unfold tracking_update_pressure.
    split; [intros _|discriminate].
    destruct (negb _); split; reflexivity.
  - split; [intros _; split; reflexivity|discriminate].
Qed.

(** X14.  Without an adequate GPS fix the tracker position is frozen: through
    any sequence of events none of which is a tick with at least a 2D
    fix, the current and the previous smoothed location keep their
    values. *)
Theorem tracker_position_frozen_without_fix (es : list Event) :
  forall t,
    forallb (fun e => negb (has_adequate_fix e)) es = true ->
    current_loc (run es t) = current_loc t /\
    old_loc (run es t) = old_loc t.
Proof.
  induction es as [|e es IH]; intros t Hes; simpl.
  - split; reflexivity.
  - simpl in Hes. apply andb_true_iff in Hes. destruct Hes as [He Hes].
    apply negb_true_iff in He.
    destruct (handle_locs e t) as (H & _). destruct (H He) as (H1 & H2).
    destruct (IH (handle e t) Hes) as (I1 & I2).
    split; [rewrite I1; exact H1|rewrite I2; exact H2].
Qed.

(** X15.  The previous smoothed location is the current one: this holds after
    any sequence of events if it held before, and after any sequence that
    contains a tick with an adequate fix whatever held before. *)
Theorem old_loc_is_current_loc (es : list Event) :
  forall t,
    old_loc t = current_loc t \/ existsb has_adequate_fix es = true ->
    old_loc (run es t) = current_loc (run es t).
Proof.
  induction es as [|e es IH]; intros t H; simpl.
  - destruct H as [H|H]; [exact H|discriminate].
  - apply IH. destruct (handle_locs e t) as (Hno & Hfix).
    destruct (has_adequate_fix e) eqn:He.
    + left. apply Hfix. reflexivity.
    + destruct (Hno eq_refl) as (H1 & H2).
      destruct H as [H|H].
      * left. rewrite H1, H2. exact H.
      * right. simpl in H. rewrite He in H. exact H.
Qed.

End EventInvariants.

(** ** Calibration and manual control, call after call *)

Section HandlerComposition.
Context {C : Collaborators}.

(** A finite number and its negation add up to a zero. *)
Lemma add_opp_self (d : float) :
  F32.is_finite d = true -> F32.is_zero (F32.add d (F32.opp d)) = true.
Proof.
  destruct d as [s|s| |s m e]; simpl; intros H; try discriminate.
  - destruct s; reflexivity.
  - unfold SpecFloat.shl_align.
    rewrite Z.min_id, Z.sub_diag. simpl.
    destruct s; simpl; rewrite Z.pos_sub_diag; reflexivity.
Qed.

(** Adding [+0] to a finite number and negating: the result cancels the
    number. *)
Lemma add_opp_add_zero (d : float) :
  F32.is_finite d = true ->
  F32.is_zero (F32.add d (F32.opp (F32.add d F32.zero))) = true.
Proof.
  destruct d as [s|s| |s m e]; intros H; try discriminate.
  - destruct s; reflexivity.
  - change (F32.add (SpecFloat.S754_finite s m e) F32.zero)
      with (SpecFloat.S754_finite s m e).
    apply add_opp_self. reflexivity.
Qed.

(** The navigation status a numeric pressure sample leaves in barometric
    mode, with and without a pending calibration. *)
Lemma pressure_numeric_sample
    (hal : HAL) (msg : mavlink_scaled_pressure_t) (t : Tracker) :
  alt_source (g t) = 0 ->
  F32.is_nan
    (baro_get_altitude_difference hal (baro_get_pressure hal)
       (F32.mul (msg_press_abs msg) F32.lit_100)) = false ->
  g (tracking_update_pressure hal msg t) = g t /\
  nav_status (tracking_update_pressure hal msg t) =
    let n := nav_status t in
    let fused :=
      F32.add
        (baro_get_altitude_difference hal (baro_get_pressure hal)
           (F32.mul (msg_press_abs msg) F32.lit_100))
        (altitude_offset n) in
    if need_altitude_calibration n
    then mkNavStatus (bearing n) (distance n) (pitch n) F32.zero
                     (F32.opp fused) (manual_control_yaw n)
                     (manual_control_pitch n) false
    else set_altitude_difference n fused.
Proof.
  intros Hsrc Hnan. unfold tracking_update_pressure.
  rewrite Hsrc, Hnan. cbv zeta.
  destruct (need_altitude_calibration (nav_status t)) eqn:En; simpl;
    rewrite En; split; reflexivity.
Qed.

(** X16.  A calibration followed by a second sample with the same differential
    altitude [d].  The calibration stores minus the fused value
    [d + offset] as the new offset, so the second sample reads
    [d - (d + offset)]: it reads zero when the offset was zero before the
    calibration, and not in general. *)
Theorem calibration_then_same_sample
    (hal : HAL) (msg : mavlink_scaled_pressure_t) (t : Tracker) :
  alt_source (g t) = 0 ->
  need_altitude_calibration (nav_status t) = true ->
  let d :=
    baro_get_altitude_difference hal (baro_get_pressure hal)
      (F32.mul (msg_press_abs msg) F32.lit_100) in
  F32.is_nan d = false ->
  let t2 :=
    tracking_update_pressure hal msg (tracking_update_pressure hal msg t) in
  altitude_difference (nav_status t2) =
    F32.add d (F32.opp (F32.add d (altitude_offset (nav_status t)))) /\
  altitude_offset (nav_status t2) =
    F32.opp (F32.add d (altitude_offset (nav_status t))) /\
  need_altitude_calibration (nav_status t2) = false /\
  (F32.is_finite d = true ->
   altitude_offset (nav_status t) = F32.zero ->
     F32.is_zero (altitude_difference (nav_status t2)) = true).
Proof.
  intros Hsrc Hnc d Hnan. cbv zeta.
  destruct (pressure_numeric_sample hal msg t Hsrc Hnan) as (G1 & N1).
  cbv zeta in N1. rewrite Hnc in N1. fold d in N1.
  destruct (pressure_numeric_sample hal msg
              (tracking_update_pressure hal msg t)) as (_ & N2);
    [rewrite G1; exact Hsrc|exact Hnan|].
  cbv zeta in N2. rewrite N1 in N2. cbn [need_altitude_calibration] in N2.
  fold d in N2. rewrite N2.
  cbn [altitude_difference altitude_offset need_altitude_calibration
       set_altitude_difference].
  split; [reflexivity|]. split; [reflexivity|]. split; [reflexivity|].
  intros Hfin Hao. rewrite Hao. apply add_opp_add_zero, Hfin.
Qed.

(** A manual-control sample replaces the previous one entirely: handling
    two samples in a row leaves the tracker as handling the second one
    alone. *)
Theorem manual_last_sample_wins
    (m1 m2 : mavlink_manual_control_t) (t : Tracker) :
  tracking_manual_control m2 (tracking_manual_control m1 t) =
    tracking_manual_control m2 t.
Proof. reflexivity. Qed.

End HandlerComposition.

(** ** The settle timer over time *)

Section SettleTimer.
Context {C : Collaborators}.

(** X17.  The settle timer latches once.  After it has taken a non-zero value
    no call of [update_initialising] changes it, in or out of the band
    and whatever the mode: a later settle wait is measured from the first
    latch. *)
Theorem settle_timer_latches_once (hs : list HAL) :
  forall t,
    delay_timer t <> 0 ->
    delay_timer (run_initialising hs t) = delay_timer t /\
    g (run_initialising hs t) = g t.
Proof.
  induction hs as [|h hs IH]; intros t Hd; simpl.
  - split; reflexivity.
  - pose proof (update_initialising_mode_timer h t) as H.
    cbv zeta in H. destruct H as (Ht & Hg & _).
    unfold settle_timer_after in Ht.
    apply Z.eqb_neq in Hd. rewrite Hd, andb_false_r in Ht.
    apply Z.eqb_neq in Hd.
    destruct (IH (update_initialising h t)) as (I1 & I2);
      [rewrite Ht; exact Hd|].
    split; [rewrite I1; exact Ht|rewrite I2; exact Hg].
Qed.

End SettleTimer.

(** ** The startup delay in milliseconds *)

Section IntegerComparison.
Import SpecFloat.
#[local] Arguments Z.mul : simpl never.
#[local] Arguments Z.add : simpl never.
#[local] Arguments Z.pow : simpl never.

(** Comparison of two positive finite floats: exponents first, then
    significands. *)
Lemma ltb_finite_pos (M1 M2 : positive) (E1 E2 : Z) :
  F32.ltb (S754_finite false M1 E1) (S754_finite false M2 E2) =
    (E1 <? E2) || ((E1 =? E2) && (Zpos M1 <? Zpos M2)).
Proof.
  unfold F32.ltb, SFltb, SFcompare.
  rewrite F32Facts.compare_cont_Eq.
  destruct (Z.compare_spec E1 E2) as [H|H|H].
  - subst E2. rewrite Z.ltb_irrefl, Z.eqb_refl. simpl.
    unfold Z.ltb. simpl. destruct (Pos.compare M1 M2); reflexivity.
  - replace (E1 <? E2) with true by (symmetry; apply Z.ltb_lt; lia).
    reflexivity.
  - replace (E1 <? E2) with false by (symmetry; apply Z.ltb_ge; lia).
    replace (E1 =? E2) with false by (symmetry; apply Z.eqb_neq; lia).
    reflexivity.
Qed.

(** An integer below [2^d] has at most [d] binary digits. *)
Lemma digits2_small (p : positive) (d : Z) :
  0 <= d -> Zpos p < 2 ^ d -> Zpos (digits2_pos p) <= d.
Proof.
  intros Hd Hp. pose proof (F32Facts.digits2_bounds p) as [Blo _].
  destruct (Z.le_gt_cases (Zpos (digits2_pos p)) d) as [L|G]; [exact L|].
  assert (2 ^ (d + 1) <= 2 ^ Zpos (digits2_pos p))
    by (apply Z.pow_le_mono_r; lia).
  rewrite Z.pow_add_r, Z.pow_1_r in H by lia. lia.
Qed.

(** Conversion to binary32 keeps the order against an integer below
    [2^23], which converts exactly: whatever rounding the other integer
    undergoes, it stays on its side. *)
Lemma of_Z_ltb_of_Z (a v : Z) :
  0 <= a -> 0 < v < 2 ^ 23 ->
  F32.ltb (F32.of_Z a) (F32.of_Z v) = (a <? v).
Proof.
  intros Ha Hv.
  destruct v as [|pv|pv]; try lia.
  destruct (F32Facts.of_Z_pos_spec pv) as (Mv & Ev & HEv & HMv & Hvs & _).
  pose proof (F32Facts.digits2_bounds pv) as Bv.
  assert (Hdv : Zpos (digits2_pos pv) <= 23)
    by (apply digits2_small; lia).
  set (dv := Zpos (digits2_pos pv)) in *.
  assert (Hdv1 : 1 <= dv) by (unfold dv; lia).
  destruct Hvs as [HEvv HMvv]; [lia|].
  replace (Ev <=? 104) with true in HEv by (symmetry; apply Z.leb_le; lia).
  rewrite HEv.
  destruct a as [|pa|pa]; try lia.
  - reflexivity.
  - destruct (F32Facts.of_Z_pos_spec pa) as (Ma & Ea & HEa & HMa & Has & Hab).
    pose proof (F32Facts.digits2_bounds pa) as Ba.
    set (da := Zpos (digits2_pos pa)) in *.
    assert (Hda1 : 1 <= da) by (unfold da; lia).
    rewrite HEa.
    destruct (Z.le_gt_cases da 23) as [Lsmall|Lbig].
    + destruct Has as [HEav HMav]; [lia|].
      replace (Ea <=? 104) with true by (symmetry; apply Z.leb_le; lia).
      rewrite ltb_finite_pos.
      destruct (Z.lt_trichotomy da dv) as [L|[E|G]].
      * replace (Ea <? Ev) with true by (symmetry; apply Z.ltb_lt; lia).
        assert (2 ^ (da + 1) <= 2 ^ dv) by (apply Z.pow_le_mono_r; lia).
        rewrite Z.pow_add_r, Z.pow_1_r in H by lia.
        symmetry. apply Z.ltb_lt. lia.
      * replace (Ea <? Ev) with false by (symmetry; apply Z.ltb_ge; lia).
        replace (Ea =? Ev) with true by (symmetry; apply Z.eqb_eq; lia).
        simpl. rewrite HMav, HMvv, E.
        assert (0 < 2 ^ (24 - dv)) by (apply Z.pow_pos_nonneg; lia).
        destruct (Z.ltb_spec (Zpos pa) (Zpos pv)) as [L|L].
        -- apply Z.ltb_lt. nia.
        -- apply Z.ltb_ge. nia.
      * replace (Ea <? Ev) with false by (symmetry; apply Z.ltb_ge; lia).
        replace (Ea =? Ev) with false by (symmetry; apply Z.eqb_neq; lia).
        assert (2 ^ (dv + 1) <= 2 ^ da) by (apply Z.pow_le_mono_r; lia).
        rewrite Z.pow_add_r, Z.pow_1_r in H by lia.
        symmetry. apply Z.ltb_ge. lia.
    + assert (0 <= Ea) by (apply Hab; lia).
      assert (2 ^ 24 <= 2 ^ da) by (apply Z.pow_le_mono_r; lia).
      change (2 ^ 24) with 16777216 in *. change (2 ^ 23) with 8388608 in *.
      replace (Zpos pa <? Zpos pv) with false
        by (symmetry; apply Z.ltb_ge; lia).
      destruct (Ea <=? 104); [|reflexivity].
      rewrite ltb_finite_pos.
      replace (Ea <? Ev) with false by (symmetry; apply Z.ltb_ge; lia).
      replace (Ea =? Ev) with false by (symmetry; apply Z.eqb_neq; lia).
      reflexivity.
Qed.

End IntegerComparison.

Section StartupDelay.
Context {C : Collaborators}.

(** When the startup delay is positive and amounts to a whole number [v]
    of milliseconds below [2^23], the delay test of both gates is exact
    on the millisecond clock: it holds while fewer than [v] milliseconds
    (modulo 2^32) have passed. *)
Lemma delay_pending_whole_ms (p : Parameters) (v now since : Z) :
  0 < v < 2 ^ 23 ->
  F32.gtb (startup_delay p) (F32.of_Z 0) = true ->
  F32.mul (startup_delay p) (F32.of_Z 1000) = F32.of_Z v ->
  delay_pending p now since = (u32 (now - since) <? v).
Proof.
  intros Hv Hpos Hms. unfold delay_pending.
  rewrite Hpos, Hms. simpl andb.
  apply of_Z_ltb_of_Z; [apply u32_range|exact Hv].
Qed.

(** X18.  The startup gate of a tick, for a positive startup delay of [v] whole
    milliseconds: the tick is withheld exactly while fewer than [v]
    milliseconds have passed since [start_time_ms] or while the safety
    switch is disarmed, and runs the mode dispatch otherwise. *)
Theorem startup_gate_in_milliseconds (hal : HAL) (t : Tracker) (v : Z) :
  0 < v < 2 ^ 23 ->
  F32.gtb (startup_delay (g t)) (F32.of_Z 0) = true ->
  F32.mul (startup_delay (g t)) (F32.of_Z 1000) = F32.of_Z v ->
  update_tracking hal t =
    if (u32 (millis hal - start_time_ms t) <? v)
       || is_SAFETY_DISARMED (safety_switch_state hal)
    then estimation_stage hal t
    else mode_dispatch hal (estimation_stage hal t).
Proof.
  intros Hv Hpos Hms.
  pose proof (estimation_stage_frame hal t) as F.
  cbv zeta in F. destruct F as (_ & Fg & Fs & _).
  unfold update_tracking. cbv zeta. rewrite Fg, Fs.
  rewrite (delay_pending_whole_ms (g t) v _ _ Hv Hpos Hms).
  destruct (_ <? v); reflexivity.
Qed.

(** X19.  The settle wait, for a positive startup delay of [v] whole
    milliseconds and a timer already latched: a call of
    [update_initialising] with the pitch in the band switches to AUTO
    exactly when at least [v] milliseconds (modulo 2^32) have passed since
    the latch, and leaves the mode as it was otherwise. *)
Theorem settle_wait_in_milliseconds (hal : HAL) (t : Tracker) (v : Z) :
  0 < v < 2 ^ 23 ->
  F32.gtb (startup_delay (g t)) (F32.of_Z 0) = true ->
  F32.mul (startup_delay (g t)) (F32.of_Z 1000) = F32.of_Z v ->
  in_settle_band hal = true ->
  delay_timer t <> 0 ->
  control_mode (update_initialising hal t) =
    if v <=? u32 (millis hal - delay_timer t) then AUTO else control_mode t.
Proof.
  intros Hv Hpos Hms Hband Hd.
  pose proof (update_initialising_mode_timer hal t) as H.
  cbv zeta in H. destruct H as (_ & _ & Hc).
  rewrite Hc, Hband. unfold settle_timer_after.
  apply Z.eqb_neq in Hd. rewrite Hd, andb_false_r.
  rewrite (delay_pending_whole_ms (g t) v _ _ Hv Hpos Hms).
  simpl andb. rewrite Z.leb_antisym. reflexivity.
Qed.

End StartupDelay.

(** ** Further runs on the test bench *)

Section CompositionRuns.
Import Bench.
Local Existing Instance bench.

(** One second after start, with no position message ever received, a
    tick declares the vehicle position valid while the armed flag is
    off. *)
Lemma valid_before_first_message_witness :
  last_update_us (vehicle (tracker0 AUTO p0)) = 0 /\
  last_update_ms (vehicle (tracker0 AUTO p0)) = 0 /\
  0 <= micros (at_ms 1000) < 5000000 /\
  location_valid
    (vehicle (update_vehicle_pos_estimate (at_ms 1000) (tracker0 AUTO p0)))
    = true /\
  update_armed_disarmed (at_ms 1000)
    (update_vehicle_pos_estimate (at_ms 1000) (tracker0 AUTO p0)) = false.
Proof.
  assert (R : 0 <= micros (at_ms 1000) < 5000000)
    by (cbv; split; [discriminate|reflexivity]).
  split; [reflexivity|]. split; [reflexivity|]. split; [exact R|].
  destruct (valid_before_first_message (at_ms 1000) (tracker0 AUTO p0)
              eq_refl eq_refl R) as (A & _ & B).
  split; [exact A|exact B].
Defined.

(** Ticks at 1 s and 2 s leave what the tick at 2 s alone leaves; ticks
    at 1 s and 6 s leave the estimate of the tick at 1 s, flagged
    invalid. *)
Lemma estimate_not_accumulated_witness :
  (u32 (micros (at_ms 2000)
        - last_update_us (vehicle (tracker_east false AUTO p0))) < 5000000 /\
   update_vehicle_pos_estimate (at_ms 2000)
     (update_vehicle_pos_estimate (at_ms 1000) (tracker_east false AUTO p0))
   = update_vehicle_pos_estimate (at_ms 2000) (tracker_east false AUTO p0))
  /\
  (5000000 <= u32 (micros (at_ms 6000)
                   - last_update_us (vehicle (tracker_east false AUTO p0))) /\
   location_estimate
     (vehicle
        (update_vehicle_pos_estimate (at_ms 6000)
           (update_vehicle_pos_estimate (at_ms 1000)
              (tracker_east false AUTO p0))))
   = mkLocation 473977431 85455939 48813).
Proof.
  assert (R1 : u32 (micros (at_ms 2000)
                    - last_update_us (vehicle (tracker_east false AUTO p0)))
               < 5000000) by reflexivity.
  assert (R2 : 5000000 <=
               u32 (micros (at_ms 6000)
                    - last_update_us (vehicle (tracker_east false AUTO p0))))
    by (cbv; discriminate).
  destruct (estimate_not_accumulated (at_ms 1000) (at_ms 2000)
              (tracker_east false AUTO p0)) as (A & _).
  destruct (estimate_not_accumulated (at_ms 1000) (at_ms 6000)
              (tracker_east false AUTO p0)) as (_ & B).
  split; split; [exact R1|exact (A R1)|exact R2|].
  rewrite (B R2). vm_compute. reflexivity.
Defined.

(** A position message at 1 s and a tick at 3 s: valid, 2 s of
    extrapolation at 5 m/s. *)
Lemma tick_after_position_message_witness :
  u32 (micros (at_ms 3000) - micros (at_ms 1000)) < 5000000 /\
  location_valid
    (vehicle (update_vehicle_pos_estimate (at_ms 3000)
                (tracking_update_position (at_ms 1000) position_msg
                   (tracker0 AUTO p0)))) = true /\
  location_estimate
    (vehicle (update_vehicle_pos_estimate (at_ms 3000)
                (tracking_update_position (at_ms 1000) position_msg
                   (tracker0 AUTO p0)))) =
    mkLocation 473977431 85455939 15099.
Proof.
  assert (R : u32 (micros (at_ms 3000) - micros (at_ms 1000)) < 5000000)
    by reflexivity.
  destruct (tick_after_position_message (at_ms 1000) (at_ms 3000)
              position_msg (tracker0 AUTO p0)) as (A & _ & B).
  split; [exact R|]. split; [rewrite A; reflexivity|].
  rewrite (B R). vm_compute. reflexivity.
Defined.

(** A message stamped at millisecond 0 never arms; one stamped at 1 s
    arms until 6 s. *)
Lemma armed_after_position_message_witness :
  (millis (at_ms 0) = 0 /\
   update_armed_disarmed (at_ms 100)
     (tracking_update_position (at_ms 0) position_msg (tracker0 AUTO p0))
   = false) /\
  (millis (at_ms 1000) <> 0 /\
   u32 (millis (at_ms 3000) - millis (at_ms 1000)) < 5000 /\
   update_armed_disarmed (at_ms 3000)
     (tracking_update_position (at_ms 1000) position_msg (tracker0 AUTO p0))
   = true).
Proof.
  destruct (armed_after_position_message (at_ms 0) (at_ms 100)
              position_msg (tracker0 AUTO p0)) as (_ & A).
  destruct (armed_after_position_message (at_ms 1000) (at_ms 3000)
              position_msg (tracker0 AUTO p0)) as (B & _).
  assert (N : millis (at_ms 1000) <> 0) by (cbv; discriminate).
  assert (R : u32 (millis (at_ms 3000) - millis (at_ms 1000)) < 5000)
    by reflexivity.
  split; [split; [reflexivity|exact (A eq_refl)]|].
  split; [exact N|]. split; [exact R|].
  apply B. split; [exact N|exact R].
Defined.

(** Six seconds after the last message the navigation status is left as
    it was and the flag is cleared. *)
Lemma lost_vehicle_freezes_nav_witness :
  5000000 <= u32 (micros (at_ms 6000)
                  - last_update_us (vehicle (tracker_east true AUTO p0))) /\
  nav_status (estimation_stage (at_ms 6000) (tracker_east true AUTO p0)) =
    nav_status (tracker_east true AUTO p0) /\
  location_valid
    (vehicle (estimation_stage (at_ms 6000) (tracker_east true AUTO p0)))
    = false.
Proof.
  assert (R : 5000000 <=
              u32 (micros (at_ms 6000)
                   - last_update_us (vehicle (tracker_east true AUTO p0))))
    by (cbv; discriminate).
  destruct (lost_vehicle_freezes_nav (at_ms 6000)
              (tracker_east true AUTO p0) R) as (A & B & _).
  split; [exact R|]. split; [exact A|exact B].
Defined.

(** A tick at 2 s with a first fix at Zurich: the distance is measured
    from the filtered fix to the estimate extrapolated on this tick. *)
Lemma calculator_uses_fresh_inputs_witness :
  u32 (micros (fix_at_ms 2000 zurich)
       - last_update_us (vehicle (tracker_east true AUTO p0))) < 5000000 /\
  control_mode (tracker_east true AUTO p0) <> SERVO_TEST /\
  distance
    (nav_status (estimation_stage (fix_at_ms 2000 zurich)
                   (tracker_east true AUTO p0))) =
    bench_get_distance smoothed_zurich
      (mkLocation 473977441 85455939 48813).
Proof.
  assert (R : u32 (micros (fix_at_ms 2000 zurich)
                   - last_update_us (vehicle (tracker_east true AUTO p0)))
              < 5000000) by reflexivity.
  assert (M : control_mode (tracker_east true AUTO p0) <> SERVO_TEST)
    by discriminate.
  split; [exact R|]. split; [exact M|].
  rewrite (calculator_uses_fresh_inputs (fix_at_ms 2000 zurich)
             (tracker_east true AUTO p0) R M).
  vm_compute. reflexivity.
Defined.

(** With the safety switch disarmed a tick in STOP issues nothing. *)
Lemma withheld_tick_issues_nothing_witness :
  safety_switch_state (disarmed_at 1000) = SAFETY_DISARMED /\
  servo_out (update_tracking (disarmed_at 1000) (tracker0 STOP p0)) = [] /\
  control_mode (update_tracking (disarmed_at 1000) (tracker0 STOP p0))
    = STOP.
Proof.
  destruct (withheld_tick_issues_nothing (disarmed_at 1000)
              (tracker0 STOP p0) (or_intror eq_refl)) as (_ & A & B & _).
  split; [reflexivity|]. split; [exact A|exact B].
Defined.

(** A tick in INITIALISING with a level antenna and no startup delay:
    the three servo commands and nothing more, the pitch at 45 and the
    mode kept. *)
Lemma initialising_tick_witness :
  control_mode (tracker0 INITIALISING p0) = INITIALISING /\
  delay_pending (g (tracker0 INITIALISING p0))
    (millis (at_ms 20))
    (start_time_ms (tracker0 INITIALISING p0)) = false /\
  safety_switch_state (at_ms 20) <> SAFETY_DISARMED /\
  pitch (nav_status (update_tracking (at_ms 20)
                       (tracker0 INITIALISING p0))) = F32.of_Z 45 /\
  servo_out (update_tracking (at_ms 20) (tracker0 INITIALISING p0)) =
    [YawDisableOut; PitchEnableOut; UpdatePitchServo (F32.of_Z 45)] /\
  control_mode (update_tracking (at_ms 20) (tracker0 INITIALISING p0))
    = INITIALISING.
Proof.
  assert (S : safety_switch_state (at_ms 20) <> SAFETY_DISARMED)
    by discriminate.
  destruct (initialising_tick (at_ms 20)
              (tracker0 INITIALISING p0) eq_refl eq_refl S)
    as (t5 & E & A & _ & _ & B & M & _).
  assert (O : in_settle_band (at_ms 20) = false) by reflexivity.
  rewrite O in E. cbn [andb] in E.
  split; [reflexivity|]. split; [reflexivity|]. split; [exact S|].
  rewrite E.
  split; [exact A|]. split; [|exact M].
  rewrite B. vm_compute. reflexivity.
Defined.

(** A tick in STOP, not withheld. *)
Lemma stop_tick_witness :
  control_mode (tracker_below STOP) = STOP /\
  delay_pending (g (tracker_below STOP)) (millis (at_ms 1000))
    (start_time_ms (tracker_below STOP)) = false /\
  safety_switch_state (at_ms 1000) <> SAFETY_DISARMED /\
  servo_out (update_tracking (at_ms 1000) (tracker_below STOP)) =
    [DisarmServos] /\
  control_mode (update_tracking (at_ms 1000) (tracker_below STOP)) = STOP.
Proof.
  assert (S : safety_switch_state (at_ms 1000) <> SAFETY_DISARMED)
    by discriminate.
  destruct (stop_tick (at_ms 1000) (tracker_below STOP)
              eq_refl eq_refl S) as (A & _ & _ & _ & B & _).
  split; [reflexivity|]. split; [reflexivity|]. split; [exact S|].
  split; [exact A|exact B].
Defined.

(** Five events, one of them a pressure sample: without a pending
    request the offset stays at zero. *)
Lemma offset_changes_only_by_calibration_witness :
  need_altitude_calibration (nav_status (tracker0 AUTO p0)) = false /\
  altitude_offset (nav_status (run mixed_events (tracker0 AUTO p0))) =
    F32.zero /\
  need_altitude_calibration
    (nav_status (run mixed_events (tracker0 AUTO p0))) = false.
Proof.
  split; [reflexivity|].
  exact (offset_changes_only_by_calibration mixed_events
           (tracker0 AUTO p0) eq_refl).
Defined.

(** In GPS-altitude mode the pending request and the offset of 3 survive
    the five events. *)
Lemma calibration_not_served_outside_baro_mode_witness :
  alt_source (g tracker_gps_pending) <> 0 /\
  need_altitude_calibration
    (nav_status (run mixed_events tracker_gps_pending)) = true /\
  altitude_offset (nav_status (run mixed_events tracker_gps_pending)) =
    F32.of_Z 3.
Proof.
  assert (S : alt_source (g tracker_gps_pending) <> 0) by discriminate.
  split; [exact S|].
  exact (calibration_not_served_outside_baro_mode mixed_events
           tracker_gps_pending S).
Defined.

(** Yaw driven manually to 1500: the bearing is still 1500 after a
    position message, two ticks and a pressure sample. *)
Lemma manual_override_persists_witness :
  forallb (fun e => negb (is_ManualMsg e)) telemetry_events = true /\
  manual_control_yaw
    (nav_status (tracking_manual_control yaw_msg (tracker0 AUTO p0)))
    = true /\
  bearing
    (nav_status
       (run telemetry_events
          (tracking_manual_control yaw_msg (tracker0 AUTO p0)))) =
    F32.of_Z 1500.
Proof.
  destruct (manual_override_persists telemetry_events
              (tracking_manual_control yaw_msg (tracker0 AUTO p0))
              eq_refl) as (_ & _ & A & _).
  split; [reflexivity|]. split; [reflexivity|].
  exact (A eq_refl).
Defined.

(** Without a fix the tracker stays at Zurich. *)
Lemma tracker_position_frozen_without_fix_witness :
  forallb (fun e => negb (has_adequate_fix e)) telemetry_events = true /\
  current_loc (run telemetry_events (tracker_at zurich)) = zurich /\
  old_loc (run telemetry_events (tracker_at zurich)) = zurich.
Proof.
  split; [reflexivity|].
  exact (tracker_position_frozen_without_fix telemetry_events
           (tracker_at zurich) eq_refl).
Defined.

(** A tick with a fix among the events makes the two locations equal,
    though they started different. *)
Lemma old_loc_is_current_loc_witness :
  old_loc tracker_split <> current_loc tracker_split /\
  existsb has_adequate_fix mixed_events = true /\
  old_loc (run mixed_events tracker_split) =
    current_loc (run mixed_events tracker_split).
Proof.
  split; [discriminate|]. split; [reflexivity|].
  exact (old_loc_is_current_loc mixed_events tracker_split
           (or_intror eq_refl)).
Defined.

(** Calibrating at a differential altitude of 7 from a zero offset: the
    next sample at 7 reads zero. *)
Lemma calibration_then_same_sample_witness :
  alt_source (g (tracker_alt F32.zero F32.zero true)) = 0 /\
  need_altitude_calibration
    (nav_status (tracker_alt F32.zero F32.zero true)) = true /\
  F32.is_nan (F32.of_Z 7) = false /\
  F32.is_finite (F32.of_Z 7) = true /\
  F32.is_zero
    (altitude_difference
       (nav_status
          (tracking_update_pressure (baro_at (F32.of_Z 7)) pressure_msg
             (tracking_update_pressure (baro_at (F32.of_Z 7)) pressure_msg
                (tracker_alt F32.zero F32.zero true))))) = true.
Proof.
  destruct (calibration_then_same_sample (baro_at (F32.of_Z 7))
              pressure_msg (tracker_alt F32.zero F32.zero true)
              eq_refl eq_refl eq_refl) as (_ & _ & _ & A).
  repeat (split; [reflexivity|]).
  exact (A eq_refl eq_refl).
Defined.

(** From an offset of 5 the same two samples leave a reading of -5: the
    calibration did not zero the reading. *)
Example calibration_from_nonzero_offset :
  altitude_difference
    (nav_status
       (tracking_update_pressure (baro_at (F32.of_Z 7)) pressure_msg
          (tracking_update_pressure (baro_at (F32.of_Z 7)) pressure_msg
             (tracker_alt F32.zero (F32.of_Z 5) true)))) = F32.of_Z (-5).
Proof. vm_compute. reflexivity. Qed.

(** The timer latched at 1.000 s is still 1000 after the 99 level ticks
    and the tick at 3.000 s. *)
Lemma settle_timer_latches_once_witness :
  delay_timer (update_initialising (pitch_at 1000 QUARTER_PI)
                 (tracker0 INITIALISING (params 2 0))) <> 0 /\
  delay_timer
    (run_initialising (level_ticks ++ [pitch_at 3000 QUARTER_PI])
       (update_initialising (pitch_at 1000 QUARTER_PI)
          (tracker0 INITIALISING (params 2 0)))) = 1000.
Proof.
  assert (N : delay_timer (update_initialising (pitch_at 1000 QUARTER_PI)
                             (tracker0 INITIALISING (params 2 0))) <> 0)
    by (vm_compute; discriminate).
  split; [exact N|].
  rewrite (proj1 (settle_timer_latches_once
                    (level_ticks ++ [pitch_at 3000 QUARTER_PI])
                    (update_initialising (pitch_at 1000 QUARTER_PI)
                       (tracker0 INITIALISING (params 2 0))) N)).
  vm_compute. reflexivity.
Defined.

(** A startup delay of 2 s is 2000 ms: the tick at 1 s is withheld. *)
Lemma startup_gate_in_milliseconds_witness :
  0 < 2000 < 2 ^ 23 /\
  F32.gtb (startup_delay (g (tracker0 STOP (params 2 0)))) (F32.of_Z 0)
    = true /\
  F32.mul (startup_delay (g (tracker0 STOP (params 2 0)))) (F32.of_Z 1000)
    = F32.of_Z 2000 /\
  update_tracking (at_ms 1000) (tracker0 STOP (params 2 0)) =
    estimation_stage (at_ms 1000) (tracker0 STOP (params 2 0)) /\
  update_tracking (at_ms 2000) (tracker0 STOP (params 2 0)) =
    mode_dispatch (at_ms 2000)
      (estimation_stage (at_ms 2000) (tracker0 STOP (params 2 0))).
Proof.
  assert (V : 0 < 2000 < 2 ^ 23) by (cbv; split; reflexivity).
  split; [exact V|]. split; [reflexivity|]. split; [reflexivity|].
  split.
  - exact (startup_gate_in_milliseconds (at_ms 1000)
             (tracker0 STOP (params 2 0)) 2000 V eq_refl eq_refl).
  - exact (startup_gate_in_milliseconds (at_ms 2000)
             (tracker0 STOP (params 2 0)) 2000 V eq_refl eq_refl).
Defined.

(** The timer latched at 1.000 s and a 2000 ms delay: in the band at
    2.980 s the mode stays INITIALISING, at 3.000 s it becomes AUTO. *)
Lemma settle_wait_in_milliseconds_witness :
  0 < 2000 < 2 ^ 23 /\
  in_settle_band (pitch_at 3000 QUARTER_PI) = true /\
  control_mode
    (update_initialising (pitch_at 2980 QUARTER_PI)
       (update_initialising (pitch_at 1000 QUARTER_PI)
          (tracker0 INITIALISING (params 2 0)))) = INITIALISING /\
  control_mode
    (update_initialising (pitch_at 3000 QUARTER_PI)
       (update_initialising (pitch_at 1000 QUARTER_PI)
          (tracker0 INITIALISING (params 2 0)))) = AUTO.
Proof.
  assert (V : 0 < 2000 < 2 ^ 23) by (cbv; split; reflexivity).
  assert (N : delay_timer (update_initialising (pitch_at 1000 QUARTER_PI)
                             (tracker0 INITIALISING (params 2 0))) <> 0)
    by (vm_compute; discriminate).
  assert (P : F32.gtb
                (startup_delay
                   (g (update_initialising (pitch_at 1000 QUARTER_PI)
                         (tracker0 INITIALISING (params 2 0)))))
                (F32.of_Z 0) = true) by reflexivity.
  assert (M : F32.mul
                (startup_delay
                   (g (update_initialising (pitch_at 1000 QUARTER_PI)
                         (tracker0 INITIALISING (params 2 0)))))
                (F32.of_Z 1000) = F32.of_Z 2000) by reflexivity.
  assert (B1 : in_settle_band (pitch_at 2980 QUARTER_PI) = true)
    by reflexivity.
  assert (B2 : in_settle_band (pitch_at 3000 QUARTER_PI) = true)
    by reflexivity.
  split; [exact V|]. split; [exact B2|]. split.
  - rewrite (settle_wait_in_milliseconds (pitch_at 2980 QUARTER_PI)
               (update_initialising (pitch_at 1000 QUARTER_PI)
                  (tracker0 INITIALISING (params 2 0)))
               2000 V P M B1 N).
    vm_compute. reflexivity.
  - rewrite (settle_wait_in_milliseconds (pitch_at 3000 QUARTER_PI)
               (update_initialising (pitch_at 1000 QUARTER_PI)
                  (tracker0 INITIALISING (params 2 0)))
               2000 V P M B2 N).
    vm_compute. reflexivity.
Defined.

(** C4 (as amended): a position message at 150.99 m, received while the
    vehicle position is valid, stores 15099 cm and sets the altitude
    difference to 150 whole metres; a tick stopped by the safety switch,
    with the vehicle 100 m above the tracker, leaves the altitude
    difference at 0. *)
Lemma C4_gps_altitude_on_position_message_witness :
  alt_source (g (tracker_below AUTO)) = 1 /\
  location_valid (vehicle (tracker_below AUTO)) = true /\
  alt (location (vehicle (tracking_update_position
                            (at_ms 0) position_msg (tracker_below AUTO))))
    = 15099 /\
  altitude_difference
    (nav_status (tracking_update_position
                   (at_ms 0) position_msg (tracker_below AUTO)))
    = F32.of_Z 150 /\
  safety_switch_state (disarmed_at 1000) = SAFETY_DISARMED /\
  altitude_difference
    (nav_status (update_tracking (disarmed_at 1000) (tracker_below AUTO)))
    = F32.zero.
Proof.
  split; [reflexivity|]. split; [reflexivity|].
  destruct (C4_gps_altitude_on_position_message
              (at_ms 0) position_msg (tracker_below AUTO) eq_refl)
    as (Halt & _ & Hvalid & _ & _ & _ & Htick).
  split; [exact Halt|]. split; [exact (Hvalid eq_refl)|].
  split; [reflexivity|].
  destruct (Htick (disarmed_at 1000)) as (_ & Hw & _).
  destruct (Hw (or_intror eq_refl)) as (_ & Hd).
  exact Hd.
Defined.

End CompositionRuns.
